(** * A shallow embedding of the aimakerspace RAG core

    Python sources covered:
    - [aimakerspace/text_utils.py]: [DocumentMetadata], [CharacterTextSplitter];
    - [aimakerspace/vectordatabase.py]: [VectorWithMetadata], [VectorDatabase];
    - [enhanced_rag_pipeline.py]: [EnhancedRAGPipeline.query].

    Python objects that are mutated in place (the metadata dictionaries, the
    database, the pipeline statistics) live in an explicit state that every
    method threads through; exceptions are results of the computation. *)

From Stdlib Require Import ZArith Lia.
From stdpp Require Import base list strings pretty sorting.

Local Open Scope string_scope.
Local Open Scope list_scope.
Local Open Scope Z_scope.

(** ** Python values, exceptions and the state/exception monad *)

Module Py.

(** The exception classes the modelled code can meet; all of them derive
    from [Exception], so an [except Exception] clause catches each one. *)
Inductive exn : Type :=
| AssertionError (msg : string)
| ValueError (msg : string)
| Exception (msg : string).

(** [str(e)] *)
Definition str_exn (e : exn) : string :=
  match e with
  | AssertionError m | ValueError m | Exception m => m
  end.

Inductive res (A : Type) : Type :=
| Ok (a : A)
| Raise (e : exn).
Arguments Ok {A} a.
Arguments Raise {A} e.

(** A method call: it reads and writes a state [S] and either returns a
    value or raises. *)
Definition M (S A : Type) : Type := S -> S * res A.

Definition ret {S A} (a : A) : M S A := fun s => (s, Ok a).
Definition raise {S A} (e : exn) : M S A := fun s => (s, Raise e).
Definition bind {S A B} (m : M S A) (k : A -> M S B) : M S B :=
  fun s => match m s with
           | (s', Ok a) => k a s'
           | (s', Raise e) => (s', Raise e)
           end.
Definition get {S} : M S S := fun s => (s, Ok s).
Definition put {S} (s' : S) : M S unit := fun _ => (s', Ok tt).
Definition modify {S} (f : S -> S) : M S unit := fun s => (f s, Ok tt).

(** [try: body except Exception as e: handler(e)]; the state changes made
    by [body] before it raised are kept, as in Python. *)
Definition try_except {S A} (body : M S A) (handler : exn -> M S A) : M S A :=
  fun s => match body s with
           | (s', Ok a) => (s', Ok a)
           | (s', Raise e) => handler e s'
           end.

(** Run a computation on a component of the state ([self.vector_db.m(...)]
    called from a pipeline method). *)
Definition zoom {S T A} (proj : S -> T) (upd : T -> S -> S) (m : M T A) : M S A :=
  fun s => match m (proj s) with (t', r) => (upd t' s, r) end.

(** A call to an external collaborator: it does not touch the modelled
    state, and it may raise. *)
Definition call {S A} (r : res A) : M S A := fun s => (s, r).

(** [for x in xs: acc = body(x, acc)], the loop-carried locals in [acc]. *)
Fixpoint for_each {S A B} (xs : list A) (body : A -> B -> M S B) (acc : B) : M S B :=
  match xs with
  | [] => ret acc
  | x :: xs' => bind (body x acc) (for_each xs' body)
  end.

(** Slice bounds as CPython's [PySlice_AdjustIndices] clamps them (step 1). *)
Definition adjust_index (len i : Z) : Z :=
  if i <? 0 then Z.max 0 (i + len) else Z.min i len.

(** [xs[lo:hi]] on a list. *)
Definition slice {A} (xs : list A) (lo hi : Z) : list A :=
  let n := Z.of_nat (length xs) in
  let a := adjust_index n lo in
  let b := adjust_index n hi in
  take (Z.to_nat (b - a)) (drop (Z.to_nat a) xs).

(** [xs[:k]] *)
Definition slice_to {A} (xs : list A) (k : Z) : list A := slice xs 0 k.

(** [s[lo:hi]] on a string. *)
Definition str_slice (s : string) (lo hi : Z) : string :=
  let n := Z.of_nat (String.length s) in
  let a := adjust_index n lo in
  let b := adjust_index n hi in
  String.substring (Z.to_nat a) (Z.to_nat (b - a)) s.

(** [range(0, stop, step)]: the length is CPython's
    [get_len_of_range], the j-th element is [j * step]. *)
Definition range0 (stop step : Z) : res (list Z) :=
  if step =? 0 then Raise (ValueError "range() arg 3 must not be zero")
  else
    let n := if 0 <? step then (stop + step - 1) / step
             else (- stop + (- step) - 1) / (- step) in
    Ok (map (fun j : nat => Z.of_nat j * step) (seq 0 (Z.to_nat n))).

End Py.

Import Py.

#[global] Instance M_ret {S} : MRet (M S) := fun A => @ret S A.
#[global] Instance M_bind {S} : MBind (M S) := fun A B k m => @bind S A B m k.

(** ** text_utils.py: CharacterTextSplitter *)

Record CharacterTextSplitter : Type := {
  chunk_size : Z;
  chunk_overlap : Z
}.

(** [CharacterTextSplitter.__init__]: the [assert] is the only check. *)
Definition CharacterTextSplitter_init (chunk_size chunk_overlap : Z)
  : res CharacterTextSplitter :=
  if chunk_overlap <? chunk_size
  then Ok {| chunk_size := chunk_size; chunk_overlap := chunk_overlap |}
  else Raise (AssertionError "Chunk size must be greater than chunk overlap").

(** [CharacterTextSplitter.split] *)
Definition split (self : CharacterTextSplitter) (text : string) : res (list string) :=
  match range0 (Z.of_nat (String.length text))
               (chunk_size self - chunk_overlap self) with
  | Raise e => Raise e
  | Ok offsets =>
      Ok (map (fun i => str_slice text i (i + chunk_size self)) offsets)
  end.

(** [CharacterTextSplitter.split_texts] *)
Fixpoint split_texts (self : CharacterTextSplitter) (texts : list string)
  : res (list string) :=
  match texts with
  | [] => Ok []
  | text :: rest =>
      match split self text with
      | Raise e => Raise e
      | Ok chunks =>
          match split_texts self rest with
          | Raise e => Raise e
          | Ok more => Ok (chunks ++ more)
          end
      end
  end.

(** ** Python dictionaries

    A [dict] keeps its keys in insertion order and assigning to a key that is
    already present keeps the key's position: an association list with
    update in place, append otherwise. *)

Section Assoc.
Context {K V : Type} `{EqDecision K}.

(** [d.get(k)] *)
Fixpoint assoc_get (k : K) (d : list (K * V)) : option V :=
  match d with
  | [] => None
  | (k', v) :: d' => if decide (k' = k) then Some v else assoc_get k d'
  end.

(** [d[k] = v] *)
Fixpoint assoc_set (k : K) (v : V) (d : list (K * V)) : list (K * V) :=
  match d with
  | [] => [(k, v)]
  | (k', v') :: d' =>
      if decide (k' = k) then (k, v) :: d' else (k', v') :: assoc_set k v d'
  end.
End Assoc.

(** The values a metadata dictionary holds. A [datetime] is kept by its
    [str()] rendering. *)
Inductive pyval : Type :=
| VNone
| VStr (s : string)
| VInt (n : Z)
| VDatetime (iso : string).

#[global] Instance pyval_eq_dec : EqDecision pyval.
Proof. solve_decision. Defined.

(** [str(v)], as an f-string renders a value. *)
Definition py_str (v : pyval) : string :=
  match v with
  | VNone => "None"
  | VStr s => s
  | VInt n => pretty n
  | VDatetime iso => iso
  end.

(** A metadata dictionary. *)
Abbreviation dict := (list (string * pyval)) (only parsing).

(** ** text_utils.py: DocumentMetadata *)

Record DocumentMetadata : Type := {
  filename : string;
  file_type : string;
  size : Z;
  created_date : pyval;
  modified_date : pyval;
  page_count : pyval;
  content_hash : pyval;
  chunk_index : pyval
}.

(** [DocumentMetadata.to_dict]: a new dictionary on every call. *)
Definition to_dict (self : DocumentMetadata) : dict :=
  [ ("filename", VStr (filename self));
    ("file_type", VStr (file_type self));
    ("size", VInt (size self));
    ("created_date", created_date self);
    ("modified_date", modified_date self);
    ("page_count", page_count self);
    ("content_hash", content_hash self);
    ("chunk_index", chunk_index self) ].

(** ** The object store

    Metadata dictionaries are shared mutable objects: a record of the
    database holds a reference to its dictionary, and the caller of
    [abuild_from_list] may pass the same dictionary several times. *)

(** References are positions in the list of allocated dictionaries. *)
Abbreviation loc := nat (only parsing).
Abbreviation heap := (list (list (string * pyval))) (only parsing).

(** An entry of [metadata_list]: an object with a [to_dict] method, or a
    dictionary (by reference). *)
Inductive md_entry : Type :=
| MdObject (o : DocumentMetadata)
| MdDict (l : loc).

(** The dictionary a reference points to. *)
Definition deref (h : heap) (l : loc) : dict := default [] (h !! l).

(** ** The libraries outside the repository

    [vec] is a numpy array of the store's dimension and [score] a numpy
    float, with Python's [<] on it; the three metric functions of
    vectordatabase.py and the [.3f] format are taken as NumPy and Python
    compute them. *)
Class Numpy : Type := {
  vec : Type;
  score : Type;
  score_ltb : score -> score -> bool;
  cosine_similarity : vec -> vec -> score;
  euclidean_distance : vec -> vec -> score;
  manhattan_distance : vec -> vec -> score;
  format_3f : score -> string
}.

(** [EmbeddingModel.get_embedding] and [async_get_embeddings]: calls to an
    outside service, which may raise. *)
Class EmbeddingModel `{Numpy} : Type := {
  get_embedding : string -> res vec;
  async_get_embeddings : list string -> res (list vec)
}.

(** A chat message, [{"role": ..., "content": ...}]. *)
Record message : Type := {
  role : string;
  content : string
}.

(** [ChatOpenAI.run(messages, temperature=...)], which may raise. *)
Class ChatOpenAI : Type := {
  chat_run : list message -> Z -> res string
}.

(** ** vectordatabase.py *)

Section VectorDatabase.
Context `{NP : Numpy} `{EM : !EmbeddingModel}.

Record VectorWithMetadata : Type := {
  vector : vec;
  metadata : loc
}.

Record VectorDatabase : Type := {
  vectors : list (string * VectorWithMetadata);
  text_to_key : list (string * string);
  chunk_counter : Z
}.

(** The state the methods of a database run in. *)
Record world : Type := {
  objects : heap;
  db : VectorDatabase
}.

(** [VectorDatabase.__init__] *)
Definition VectorDatabase_init : VectorDatabase :=
  {| vectors := []; text_to_key := []; chunk_counter := 0 |}.

(** [self.distance_functions.get(name, default)] *)
Definition distance_functions_get (name : string) (default : vec -> vec -> score)
  : vec -> vec -> score :=
  if decide (name = "cosine") then cosine_similarity
  else if decide (name = "euclidean") then euclidean_distance
  else if decide (name = "manhattan") then manhattan_distance
  else default.

(** The [distance_measure] argument: [None], a [str], or a callable. *)
Inductive measure : Type :=
| DNone
| DStr (name : string)
| DFun (f : vec -> vec -> score).

(** [distance_measure == s] for a string [s]: a callable or [None] is never
    equal to a string. *)
Definition measure_eq_str (m : measure) (s : string) : bool :=
  match m with
  | DStr name => bool_decide (name = s)
  | _ => false
  end.

Definition measure_is_None (m : measure) : bool :=
  match m with DNone => true | _ => false end.

Definition isinstance_str (m : measure) : bool :=
  match m with DStr _ => true | _ => false end.

(** Allocation of a new dictionary. *)
Definition alloc (d : dict) : M world loc :=
  fun w => ({| objects := objects w ++ [d]; db := db w |},
            Ok (length (objects w))).

(** [d[k] = v] on the dictionary at [l]. *)
Definition dict_setitem (l : loc) (k : string) (v : pyval) : M world unit :=
  modify (fun w =>
    {| objects := <[l := assoc_set k v (deref (objects w) l)]> (objects w);
       db := db w |}).

Definition modify_db (f : VectorDatabase -> VectorDatabase) : M world unit :=
  modify (fun w => {| objects := objects w; db := f (db w) |}).

(** [VectorDatabase.insert] *)
Definition insert (key : string) (vector : vec) (metadata : option loc)
  : M world unit :=
  md ← match metadata with
       | None => alloc []
       | Some l => mret l
       end;
  modify_db (fun d =>
    {| vectors := assoc_set key {| vector := vector; metadata := md |} (vectors d);
       text_to_key := text_to_key d;
       chunk_counter := chunk_counter d |}).

(** *** sorted(scores, key=lambda x: x[1], reverse=reverse)

    [list.sort] compares with [<] only, is stable, and for [reverse=True]
    reverses the list before and after sorting. When [<] is a strict weak
    order every stable sort returns the same list; insertion sort is the
    one written here. *)
Definition result : Type := string * score * loc.

Definition result_score (x : result) : score := snd (fst x).

Fixpoint sort_insert (x : result) (l : list result) : list result :=
  match l with
  | [] => [x]
  | y :: l' =>
      if score_ltb (result_score y) (result_score x)
      then y :: sort_insert x l'
      else x :: y :: l'
  end.

Fixpoint sort_asc (l : list result) : list result :=
  match l with
  | [] => []
  | x :: l' => sort_insert x (sort_asc l')
  end.

Definition sorted (l : list result) (reverse : bool) : list result :=
  if reverse then rev (sort_asc (rev l)) else sort_asc l.

(** [bool(file_type_filter)]: [None] and the empty string are false. *)
Definition filter_active (file_type_filter : option string) : bool :=
  match file_type_filter with
  | None => false
  | Some s => negb (bool_decide (s = ""))
  end.

(** [metadata.get('file_type') != file_type_filter] for an active filter. *)
Definition file_type_differs (d : dict) (file_type_filter : option string) : bool :=
  match assoc_get "file_type" d, file_type_filter with
  | Some (VStr t), Some s => negb (bool_decide (t = s))
  | _, _ => true
  end.

(** [VectorDatabase.search], lines 62-67: the function that scores. *)
Definition select_distance_func (distance_measure : measure) : vec -> vec -> score :=
  match distance_measure with
  | DNone => cosine_similarity
  | DStr name => distance_functions_get name cosine_similarity
  | DFun f => f
  end.

(** [VectorDatabase.search], line 80:
    [distance_measure in ['cosine', None] or
     (isinstance(distance_measure, str) and distance_measure == 'cosine')]. *)
Definition reverse_flag (distance_measure : measure) : bool :=
  (measure_eq_str distance_measure "cosine" || measure_is_None distance_measure)
  || (isinstance_str distance_measure
      && measure_eq_str distance_measure "cosine").

(** One iteration of the loop of [search]: [continue] leaves [scores] as
    it is. *)
Definition search_step (distance_func : vec -> vec -> score) (query_vector : vec)
    (file_type_filter : option string)
    (item : string * VectorWithMetadata) (scores : list result)
  : M world (list result) :=
  let '(key, vector_with_metadata) := item in
  w ← get;
  if filter_active file_type_filter
     && file_type_differs (deref (objects w) (metadata vector_with_metadata))
                          file_type_filter
  then mret scores
  else
    let score := distance_func query_vector (vector vector_with_metadata) in
    mret (scores ++ [(key, score, metadata vector_with_metadata)]).

(** [VectorDatabase.search] *)
Definition search (query_vector : vec) (k : Z) (distance_measure : measure)
    (file_type_filter : option string) : M world (list result) :=
  let distance_func := select_distance_func distance_measure in
  self ← get;
  scores ← for_each (vectors (db self))
              (search_step distance_func query_vector file_type_filter) [];
  let reverse := reverse_flag distance_measure in
  mret (slice_to (sorted scores reverse) k).

(** What [search_by_text] returns: bare texts, or (text, score, metadata)
    tuples. *)
Inductive text_output : Type :=
| Texts (l : list string)
| Tuples (l : list result).

(** The inner loop of [search_by_text]: the first text mapped to [key]. *)
Fixpoint text_of_key (key : string) (items : list (string * string)) : option string :=
  match items with
  | [] => None
  | (text, stored_key) :: items' =>
      if decide (stored_key = key) then Some text else text_of_key key items'
  end.

(** [VectorDatabase.search_by_text] *)
Definition search_by_text (query_text : string) (k : Z) (distance_measure : measure)
    (return_as_text include_metadata : bool) (file_type_filter : option string)
  : M world text_output :=
  query_vector ← call (get_embedding query_text);
  results ← search query_vector k distance_measure file_type_filter;
  self ← get;
  let text_results :=
    map (fun '(key, score, metadata) =>
           (default key (text_of_key key (text_to_key (db self))), score, metadata))
        results in
  if return_as_text && negb include_metadata
  then mret (Texts (map (fun r : result => fst (fst r)) text_results))
  else mret (Tuples text_results).

(** [VectorDatabase.retrieve_from_key]: [dict.get] never calls the
    [defaultdict] factory, so a missing key is not inserted. *)
Definition retrieve_from_key (key : string) : M world (option vec) :=
  self ← get;
  let vector_with_metadata := assoc_get key (vectors (db self)) in
  mret (match vector_with_metadata with
        | Some v => Some (vector v)
        | None => None
        end).

(** [f"chunk_{n}"] *)
Definition chunk_key (n : Z) : string := "chunk_" +:+ pretty n.

(** One iteration of the loop of [abuild_from_list]. *)
Definition abuild_step (metadata_list : option (list md_entry))
    (item : nat * (string * vec)) : M world unit :=
  let '(i, (text, embedding)) := item in
  self ← get;
  let chunk_key := chunk_key (chunk_counter (db self)) in
  modify_db (fun d =>
    {| vectors := vectors d; text_to_key := text_to_key d;
       chunk_counter := chunk_counter d + 1 |});;
  empty ← alloc [];
  chunk_metadata ←
    match metadata_list with
    | Some ((_ :: _) as mds) =>
        match mds !! i with
        | Some entry =>
            l ← match entry with
                | MdObject o => alloc (to_dict o)
                | MdDict l => mret l
                end;
            dict_setitem l "chunk_index" (VInt (Z.of_nat i));;
            mret l
        | None => mret empty
        end
    | _ => mret empty
    end;
  modify_db (fun d =>
    {| vectors := vectors d;
       text_to_key := assoc_set text chunk_key (text_to_key d);
       chunk_counter := chunk_counter d |});;
  insert chunk_key embedding (Some chunk_metadata).

(** [enumerate(xs)] from [i]. *)
Fixpoint enumerate_from {A} (i : nat) (xs : list A) : list (nat * A) :=
  match xs with
  | [] => []
  | x :: xs' => (i, x) :: enumerate_from (S i) xs'
  end.

(** [zip(xs, ys)]: as long as the shorter argument. *)
Fixpoint py_zip {A B} (xs : list A) (ys : list B) : list (A * B) :=
  match xs, ys with
  | x :: xs', y :: ys' => (x, y) :: py_zip xs' ys'
  | _, _ => []
  end.

(** [VectorDatabase.abuild_from_list]; it returns [self]. *)
Definition abuild_from_list (list_of_text : list string)
    (metadata_list : option (list md_entry)) : M world unit :=
  embeddings ← call (async_get_embeddings list_of_text);
  for_each (enumerate_from 0 (py_zip list_of_text embeddings))
    (fun item _ => abuild_step metadata_list item) tt.

(** The dictionary [get_database_stats] returns. *)
Record database_stats : Type := {
  total_vectors : Z;
  file_types : list (pyval * Z);
  available_distance_metrics : list string
}.

(** One iteration of the loop of [get_database_stats]:
    [file_types[file_type] += 1] on a [defaultdict(int)]. *)
Definition stats_step (item : string * VectorWithMetadata)
    (file_types : list (pyval * Z)) : M world (list (pyval * Z)) :=
  let '(_, vector_with_metadata) := item in
  w ← get;
  let file_type :=
    default (VStr "unknown")
      (assoc_get "file_type" (deref (objects w) (metadata vector_with_metadata))) in
  mret (assoc_set file_type (default 0 (assoc_get file_type file_types) + 1)
                  file_types).

(** [VectorDatabase.get_database_stats] *)
Definition get_database_stats : M world database_stats :=
  self ← get;
  let total_vectors := Z.of_nat (length (vectors (db self))) in
  file_types ← for_each (vectors (db self)) stats_step [];
  mret {| total_vectors := total_vectors;
          file_types := file_types;
          available_distance_metrics := ["cosine"; "euclidean"; "manhattan"] |}.

End VectorDatabase.

(** ** enhanced_rag_pipeline.py: EnhancedRAGPipeline.query *)

Section Pipeline.
Context `{NP : Numpy} `{EM : !EmbeddingModel} `{CM : ChatOpenAI}.

(** [self.stats] *)
Record Stats : Type := {
  documents_processed : Z;
  chunks_created : Z;
  queries_processed : Z;
  txt_files_processed : Z;
  pdf_files_processed : Z;
  youtube_videos_processed : Z
}.

Record EnhancedRAGPipeline : Type := {
  distance_metric : string;
  vector_db : world;
  text_splitter : CharacterTextSplitter;
  stats : Stats
}.

(** The dictionary [query] returns. *)
Inductive query_result : Type :=
| QuerySuccess (response : string) (context : list string)
    (relevance_scores : list string) (sources : list string)
    (full_results : option (list result))
| QueryFailure (error : string).

(** [self.stats['queries_processed'] += 1] *)
Definition count_query (p : EnhancedRAGPipeline) : EnhancedRAGPipeline :=
  {| distance_metric := distance_metric p;
     vector_db := vector_db p;
     text_splitter := text_splitter p;
     stats :=
       {| documents_processed := documents_processed (stats p);
          chunks_created := chunks_created (stats p);
          queries_processed := queries_processed (stats p) + 1;
          txt_files_processed := txt_files_processed (stats p);
          pdf_files_processed := pdf_files_processed (stats p);
          youtube_videos_processed := youtube_videos_processed (stats p) |} |}.

Definition set_vector_db (w : world) (p : EnhancedRAGPipeline) : EnhancedRAGPipeline :=
  {| distance_metric := distance_metric p;
     vector_db := w;
     text_splitter := text_splitter p;
     stats := stats p |}.

Definition newline : string := String (Ascii.ascii_of_nat 10) "".

(** The entry of [sources] for one result. *)
Definition source_label (metadata_dict : dict) : string :=
  match metadata_dict with
  | [] => "Unknown Source"
  | _ =>
      py_str (default (VStr "Unknown") (assoc_get "filename" metadata_dict))
      +:+ "_chunk_"
      +:+ py_str (default (VStr "N/A") (assoc_get "chunk_index" metadata_dict))
      +:+ " ("
      +:+ py_str (default (VStr "N/A") (assoc_get "file_type" metadata_dict))
      +:+ ")"
  end.

Definition system_message (response_style : string) : message :=
  {| role := "system";
     content :=
       "You are a helpful assistant that answers questions based strictly on the provided context. "
       +:+ "Keep responses " +:+ response_style
       +:+ ". If the context doesn't contain relevant information, respond with 'I don't know'." |}.

Definition user_message (context user_query : string) : message :=
  {| role := "user";
     content := "Context: " +:+ context +:+ newline +:+ newline
                +:+ "Question: " +:+ user_query |}.

(** The body of the [try] block of [query]. The [print] calls of the
    source write to the console only and are left out. *)
Definition query_body (user_query : string) (k : Z) (distance_metric' : option string)
    (response_style : string) (include_metadata : bool)
    (file_type_filter : option string) : M EnhancedRAGPipeline query_result :=
  self ← get;
  let actual_distance_metric :=
    match distance_metric' with
    | Some s => if decide (s = "") then distance_metric self else s
    | None => distance_metric self
    end in
  relevant_results ←
    zoom vector_db set_vector_db
      (search_by_text user_query k (DStr actual_distance_metric) false true
                      file_type_filter);
  (* [for text, score, metadata_dict in relevant_results] unpacks tuples *)
  tuples ← match relevant_results with
           | Tuples l => mret l
           | Texts _ => raise (ValueError "not enough values to unpack")
           end;
  self ← get;
  let context_list := map (fun r : result => fst (fst r)) tuples in
  let relevance_scores := map (fun r : result => format_3f (result_score r)) tuples in
  let sources :=
    map (fun r : result => source_label (deref (objects (vector_db self)) (snd r)))
        tuples in
  let context := String.concat (newline +:+ newline) context_list in
  response ← call (chat_run [system_message response_style;
                             user_message context user_query] 0);
  mret (QuerySuccess response context_list relevance_scores sources
          (if include_metadata then Some tuples else None)).

(** [EnhancedRAGPipeline.query] *)
Definition query (user_query : string) (k : Z) (distance_metric' : option string)
    (response_style : string) (include_metadata : bool)
    (file_type_filter : option string) : M EnhancedRAGPipeline query_result :=
  modify count_query;;
  try_except
    (query_body user_query k distance_metric' response_style include_metadata
                file_type_filter)
    (fun e => mret (QueryFailure (str_exn e))).

End Pipeline.

(** ** Concrete collaborators, for running the model

    Integer vectors: the dot product and the Manhattan distance are exact on
    them; the cosine similarity and the Euclidean distance are exact
    whenever the norms involved are integers and the quotient is one, as for
    the axis vectors used below. *)

Module Example.

Fixpoint dot (a b : list Z) : Z :=
  match a, b with
  | x :: a', y :: b' => x * y + dot a' b'
  | _, _ => 0
  end.

Fixpoint sub (a b : list Z) : list Z :=
  match a, b with
  | x :: a', y :: b' => (x - y) :: sub a' b'
  | _, _ => []
  end.

Definition norm (a : list Z) : Z := Z.sqrt (dot a a).

Definition Z_numpy : Numpy := {|
  vec := list Z;
  score := Z;
  score_ltb := Z.ltb;
  cosine_similarity := fun a b => dot a b / (norm a * norm b);
  euclidean_distance := fun a b => norm (sub a b);
  manhattan_distance := fun a b => foldr (fun x acc => Z.abs x + acc) 0 (sub a b);
  format_3f := fun s => pretty s +:+ ".000"
|}.

(** An embedding service that never fails: "cat" lies on the first axis,
    every other text on the second. *)
Definition embed (text : string) : list Z :=
  if decide (text = "cat") then [1; 0] else [0; 1].

Definition embedding_ok : @EmbeddingModel Z_numpy :=
  @Build_EmbeddingModel Z_numpy
    (fun text => Ok (embed text))
    (fun texts => Ok (map embed texts)).

(** An embedding service that is down. *)
Definition embedding_down : @EmbeddingModel Z_numpy :=
  @Build_EmbeddingModel Z_numpy
    (fun _ => Raise (Exception "connection error"))
    (fun _ => Raise (Exception "connection error")).

Definition chat_ok : ChatOpenAI := {| chat_run := fun _ _ => Ok "I don't know" |}.
Definition chat_down : ChatOpenAI :=
  {| chat_run := fun _ _ => Raise (Exception "rate limit") |}.

Definition record (v : list Z) (md : loc) : @VectorWithMetadata Z_numpy :=
  @Build_VectorWithMetadata Z_numpy v md.

(** A store of two chunks on the two axes, with a text and a pdf source. *)
Definition two_chunks : @world Z_numpy := {|
  objects := [ [("file_type", VStr "txt")]; [("file_type", VStr "pdf")] ];
  db := {| vectors := [ ("chunk_0", record [1; 0] 0%nat);
                        ("chunk_1", record [0; 1] 1%nat) ];
           text_to_key := [ ("cat", "chunk_0"); ("dog", "chunk_1") ];
           chunk_counter := 2 |}
|}.

(** The empty store, with one dictionary the caller owns. *)
Definition empty_store : @world Z_numpy := {|
  objects := [ [("file_type", VStr "txt")] ];
  db := VectorDatabase_init
|}.

Definition pipeline : @EnhancedRAGPipeline Z_numpy := {|
  distance_metric := "cosine";
  vector_db := two_chunks;
  text_splitter := {| chunk_size := 1000; chunk_overlap := 200 |};
  stats := {| documents_processed := 1; chunks_created := 2;
              queries_processed := 0; txt_files_processed := 1;
              pdf_files_processed := 0; youtube_videos_processed := 0 |}
|}.

End Example.

(** Scores with a NaN: an integer or [None] for NaN. As on floats, [<] is
    false as soon as one side is NaN. The cosine similarity divides by the
    product of the norms; when that is zero so is the dot product, and NumPy
    evaluates 0/0 to NaN with a warning and without raising. *)
Module ExampleNaN.

Definition nan_ltb (a b : option Z) : bool :=
  match a, b with
  | Some x, Some y => Z.ltb x y
  | _, _ => false
  end.

Definition NaN_numpy : Numpy := {|
  vec := list Z;
  score := option Z;
  score_ltb := nan_ltb;
  cosine_similarity := fun a b =>
    if decide (Example.norm a * Example.norm b = 0) then None
    else Some (Example.dot a b / (Example.norm a * Example.norm b));
  euclidean_distance := fun a b => Some (Example.norm (Example.sub a b));
  manhattan_distance := fun a b =>
    Some (foldr (fun x acc => Z.abs x + acc) 0 (Example.sub a b));
  format_3f := fun s =>
    match s with
    | Some n => pretty n +:+ ".000"
    | None => "nan"
    end
|}.

Definition record (v : list Z) (md : loc) : @VectorWithMetadata NaN_numpy :=
  @Build_VectorWithMetadata NaN_numpy v md.

(** A store of three chunks: the two axes and, between them, the zero
    vector. *)
Definition with_zero_vector : @world NaN_numpy := {|
  objects := [ [("file_type", VStr "txt")]; [("file_type", VStr "txt")];
               [("file_type", VStr "txt")] ];
  db := {| vectors := [ ("chunk_0", record [1; 0] 0%nat);
                        ("chunk_1", record [0; 0] 1%nat);
                        ("chunk_2", record [0; 1] 2%nat) ];
           text_to_key := [ ("cat", "chunk_0"); ("", "chunk_1"); ("dog", "chunk_2") ];
           chunk_counter := 3 |}
|}.

End ExampleNaN.

(** ** Strings: the [str] methods the pipeline and the loaders use

    A [string] is the sequence of the code points of a Python [str], each
    below 256. *)

(** [str.lower()] on one character: the ASCII capitals and the Latin-1
    capitals (all of U+00C0..U+00DE but the multiplication sign). *)
Definition ascii_lower (c : Ascii.ascii) : Ascii.ascii :=
  let n := Ascii.nat_of_ascii c in
  if ((65 <=? n) && (n <=? 90))%nat
     || ((192 <=? n) && (n <=? 222) && negb (n =? 215))%nat
  then Ascii.ascii_of_nat (n + 32)
  else c.

(** [s.lower()] *)
Fixpoint str_lower (s : string) : string :=
  match s with
  | EmptyString => EmptyString
  | String c s' => String (ascii_lower c) (str_lower s')
  end.

(** [s.endswith(suffix)] *)
Definition str_endswith (s suffix : string) : bool :=
  let n := String.length s in
  let m := String.length suffix in
  (m <=? n)%nat && String.eqb (String.substring (n - m) m s) suffix.

(** [len(s.encode('utf-8'))]: one byte below U+0080, two from there on. *)
Fixpoint utf8_len (s : string) : Z :=
  match s with
  | EmptyString => 0
  | String c s' =>
      (if (Ascii.nat_of_ascii c <? 128)%nat then 1 else 2) + utf8_len s'
  end.

(** [s.split(sep)[-1]] for a one-character [sep]: what follows the last
    separator, the whole of [s] when there is none. *)
Fixpoint split_last (sep : Ascii.ascii) (s : string) : string :=
  match s with
  | EmptyString => EmptyString
  | String c s' =>
      if existsb (fun c' => bool_decide (c' = sep)) (String.list_ascii_of_string s')
      then split_last sep s'
      else if bool_decide (c = sep) then s' else s
  end.

(** ** text_utils.py: building a DocumentMetadata *)

(** [hashlib.md5(content.encode('utf-8')).hexdigest()] *)
Class Hashlib : Type := {
  md5_hexdigest : string -> string
}.

(** [DocumentMetadata.__init__] *)
Definition DocumentMetadata_init (filename file_type : string) (size : Z)
    (created_date modified_date page_count : pyval) : DocumentMetadata :=
  {| filename := filename; file_type := file_type; size := size;
     created_date := created_date; modified_date := modified_date;
     page_count := page_count; content_hash := VNone; chunk_index := VNone |}.

(** [DocumentMetadata.set_content_hash] *)
Definition set_content_hash `{Hashlib} (self : DocumentMetadata) (content : string)
  : DocumentMetadata :=
  {| filename := filename self; file_type := file_type self; size := size self;
     created_date := created_date self; modified_date := modified_date self;
     page_count := page_count self;
     content_hash := VStr (md5_hexdigest content);
     chunk_index := chunk_index self |}.

(** ** youtube_utils.py *)

(** [re.search(pattern, url)] and [match.group(1)] of the match found. *)
Class Re : Type := {
  re_search_group1 : string -> string -> option string
}.

Section YouTube.
Context `{RE : Re} `{HL : Hashlib}.

Definition patterns : list string :=
  [ "(?:https?://)?(?:www\.)?(?:youtube\.com|youtu\.be)/(?:watch\?v=|embed/|v/|)([\w-]{11})(?:\S+)?";
    "(?:https?://)?(?:www\.)?(?:youtube\.com|youtu\.be)/([\w-]{11})(?:\S+)?" ].

(** [YouTubeTranscriber.extract_video_id] *)
Definition extract_video_id (url : string) : option string :=
  foldr (fun pattern rest =>
           match re_search_group1 pattern url with
           | Some id => Some id
           | None => rest
           end)
        None patterns.

(** The dictionary [get_video_info] returns. *)
Inductive video_info : Type :=
| VideoError (error : string)
| VideoInfo (id title url : string) (duration_seconds : Z)
    (author description : string) (transcription_available : bool).

(** [YouTubeTranscriber.get_video_info]; [not video_id] holds for [None]
    and for the empty string. *)
Definition get_video_info (url : string) : video_info :=
  match extract_video_id url with
  | None => VideoError "Invalid YouTube URL"
  | Some video_id =>
      if bool_decide (video_id = "") then VideoError "Invalid YouTube URL"
      else
        VideoInfo video_id
          ("Mock YouTube Video Title for " +:+ video_id)
          ("https://www.youtube.com/watch?v=" +:+ video_id)
          300 "Mock Author"
          ("This is a mock description for video " +:+ video_id +:+ ".")
          true
  end.

Definition transcript : string :=
  "Welcome to this Power BI tutorial for beginners. In this video, we'll cover the essential "
  +:+ "steps to get started with Power BI Desktop. First, let's download and install Power BI Desktop "
  +:+ "from the official Microsoft website. Once installed, we'll connect to our data sources. "
  +:+ "I'll show you how to import data from Excel files and connect directly to SQL Server databases. "
  +:+ "For our demonstration, we'll use a sales dataset containing customer information and transaction data. "
  +:+ "We'll create several visualizations including bar charts to show sales by region, line graphs "
  +:+ "for monthly trends, and pie charts for product category distribution. The tutorial covers "
  +:+ "essential DAX formulas including SUM for calculating totals, AVERAGE for mean values, "
  +:+ "and CALCULATE for conditional calculations. We'll also demonstrate advanced features like "
  +:+ "creating relationships between the customers and transactions tables using primary and foreign keys. "
  +:+ "The video shows how to use filters to drill down into specific time periods or regions. "
  +:+ "We'll build an interactive dashboard with slicers that allow users to filter data dynamically. "
  +:+ "Finally, we'll publish our report to the Power BI service and share it with team members "
  +:+ "through organized workspaces. This enables collaborative data analysis and decision making.".

(** [YouTubeTranscriber.transcribe_video] *)
Definition transcribe_video (url : string) : res string :=
  match get_video_info url with
  | VideoError error => Raise (ValueError error)
  | VideoInfo _ _ _ _ _ _ _ => Ok transcript
  end.

Record YouTubeDocumentLoader : Type := {
  urls : list string;
  documents : list string;
  metadata_of_documents : list DocumentMetadata
}.

(** [YouTubeDocumentLoader.__init__] *)
Definition YouTubeDocumentLoader_init (urls : list string) : YouTubeDocumentLoader :=
  {| urls := urls; documents := []; metadata_of_documents := [] |}.

(** The body of the [try] block in the loop of [load_documents]; [continue]
    ends the iteration. The [print] calls are left out. *)
Definition load_one (url : string) : M YouTubeDocumentLoader unit :=
  match get_video_info url with
  | VideoError _ => mret tt
  | VideoInfo _ title _ _ _ _ _ =>
      transcription ← call (transcribe_video url);
      modify (fun self =>
        {| urls := urls self;
           documents := documents self ++ [transcription];
           metadata_of_documents := metadata_of_documents self |});;
      let metadata :=
        set_content_hash
          (DocumentMetadata_init title "youtube" (utf8_len transcription)
             VNone VNone (VInt 1))
          transcription in
      modify (fun self =>
        {| urls := urls self;
           documents := documents self;
           metadata_of_documents := metadata_of_documents self ++ [metadata] |})
  end.

(** [YouTubeDocumentLoader.load_documents] *)
Definition load_documents : M YouTubeDocumentLoader (list string) :=
  self ← get;
  for_each (urls self)
    (fun url _ => try_except (load_one url) (fun _ => mret tt)) tt;;
  self ← get;
  mret (documents self).

End YouTube.

(** ** enhanced_rag_pipeline.py: construction, ingestion, comparison *)

(** [TextFileLoader(file_path)]: what [load_documents()] returns together
    with the [metadata] list it fills, or the exception it raises. The
    files are outside the model. *)
Class TextFileLoader : Type := {
  load_file_documents : string -> res (list string * list DocumentMetadata)
}.

Section PipelineIngest.
Context `{NP : Numpy} `{EM : !EmbeddingModel}.
Context `{TL : TextFileLoader} `{RE : Re} `{HL : Hashlib}.

(** [EnhancedRAGPipeline.__init__]: the splitter's constructor may raise. *)
Definition EnhancedRAGPipeline_init (distance_metric : string)
    (chunk_size chunk_overlap : Z) : res EnhancedRAGPipeline :=
  match CharacterTextSplitter_init chunk_size chunk_overlap with
  | Raise e => Raise e
  | Ok splitter =>
      Ok {| distance_metric := distance_metric;
            vector_db := {| objects := []; db := VectorDatabase_init |};
            text_splitter := splitter;
            stats := {| documents_processed := 0; chunks_created := 0;
                        queries_processed := 0; txt_files_processed := 0;
                        pdf_files_processed := 0;
                        youtube_videos_processed := 0 |} |}
  end.

(** The loop that splits every document and repeats its metadata once per
    chunk: [chunks] and [chunk_metadata_list]. *)
Fixpoint chunk_documents (splitter : CharacterTextSplitter)
    (pairs : list (string * DocumentMetadata))
  : res (list string * list DocumentMetadata) :=
  match pairs with
  | [] => Ok ([], [])
  | (doc_content, doc_metadata) :: rest =>
      match split_texts splitter [doc_content] with
      | Raise e => Raise e
      | Ok split_chunks =>
          match chunk_documents splitter rest with
          | Raise e => Raise e
          | Ok (chunks, chunk_metadata_list) =>
              Ok (split_chunks ++ chunks,
                  replicate (length split_chunks) doc_metadata
                  ++ chunk_metadata_list)
          end
      end
  end.

(** The dictionaries the two ingestion methods return. *)
Inductive ingest_result : Type :=
| FileSuccess (documents_loaded chunks_created : Z) (metadata_available : bool)
| YouTubeSuccess (videos_processed documents_loaded chunks_created : Z)
| IngestFailure (error : string).

(** The updates of [self.stats] at the end of [add_documents_from_file]. *)
Definition count_file (file_path : string) (documents chunks : Z) (s : Stats) : Stats :=
  let is_txt := str_endswith (str_lower file_path) ".txt" in
  let is_pdf := str_endswith (str_lower file_path) ".pdf" in
  {| documents_processed := documents_processed s + documents;
     chunks_created := chunks_created s + chunks;
     queries_processed := queries_processed s;
     txt_files_processed :=
       if is_txt then txt_files_processed s + 1 else txt_files_processed s;
     pdf_files_processed :=
       if is_txt then pdf_files_processed s
       else if is_pdf then pdf_files_processed s + 1 else pdf_files_processed s;
     youtube_videos_processed := youtube_videos_processed s |}.

(** The updates of [self.stats] at the end of [add_documents_from_youtube]. *)
Definition count_youtube (videos documents chunks : Z) (s : Stats) : Stats :=
  {| documents_processed := documents_processed s + documents;
     chunks_created := chunks_created s + chunks;
     queries_processed := queries_processed s;
     txt_files_processed := txt_files_processed s;
     pdf_files_processed := pdf_files_processed s;
     youtube_videos_processed := youtube_videos_processed s + videos |}.

Definition set_stats (s : Stats) (p : EnhancedRAGPipeline) : EnhancedRAGPipeline :=
  {| distance_metric := distance_metric p;
     vector_db := vector_db p;
     text_splitter := text_splitter p;
     stats := s |}.

(** [EnhancedRAGPipeline.add_documents_from_file] *)
Definition add_documents_from_file (file_path : string)
  : M EnhancedRAGPipeline ingest_result :=
  try_except
    (loaded ← call (load_file_documents file_path);
     let documents := fst loaded in
     let metadata_list := snd loaded in
     self ← get;
     chunked ← call (chunk_documents (text_splitter self)
                       (py_zip documents metadata_list));
     let chunks := fst chunked in
     let chunk_metadata_list := snd chunked in
     zoom vector_db set_vector_db
       (abuild_from_list chunks (Some (map MdObject chunk_metadata_list)));;
     modify (fun p =>
       set_stats (count_file file_path (Z.of_nat (length documents))
                    (Z.of_nat (length chunks)) (stats p)) p);;
     mret (FileSuccess (Z.of_nat (length documents)) (Z.of_nat (length chunks))
             (0 <? Z.of_nat (length metadata_list))))
    (fun e => mret (IngestFailure (str_exn e))).

(** The character [=]. *)
Definition equals_sign : Ascii.ascii := Ascii.ascii_of_nat 61.

(** The first loop of [add_documents_from_youtube]: the transcriptions and
    their metadata; the first URL that cannot be transcribed raises. *)
Fixpoint transcribe_all (urls : list string)
  : res (list string * list DocumentMetadata) :=
  match urls with
  | [] => Ok ([], [])
  | url :: rest =>
      match transcribe_video url with
      | Raise e => Raise e
      | Ok real_text =>
          let metadata :=
            set_content_hash
              (DocumentMetadata_init
                 ("YouTube_Video_" +:+ str_slice (split_last equals_sign url) 0 8)
                 "youtube" (utf8_len real_text) VNone VNone (VInt 1))
              real_text in
          match transcribe_all rest with
          | Raise e => Raise e
          | Ok (mock_transcriptions, mock_metadata) =>
              Ok (real_text :: mock_transcriptions, metadata :: mock_metadata)
          end
      end
  end.

(** [EnhancedRAGPipeline.add_documents_from_youtube] *)
Definition add_documents_from_youtube (urls : list string)
  : M EnhancedRAGPipeline ingest_result :=
  try_except
    (loaded ← call (transcribe_all urls);
     let mock_transcriptions := fst loaded in
     let mock_metadata := snd loaded in
     self ← get;
     chunked ← call (chunk_documents (text_splitter self)
                       (py_zip mock_transcriptions mock_metadata));
     let chunks := fst chunked in
     let chunk_metadata_list := snd chunked in
     zoom vector_db set_vector_db
       (abuild_from_list chunks (Some (map MdObject chunk_metadata_list)));;
     modify (fun p =>
       set_stats (count_youtube (Z.of_nat (length urls))
                    (Z.of_nat (length mock_transcriptions))
                    (Z.of_nat (length chunks)) (stats p)) p);;
     mret (YouTubeSuccess (Z.of_nat (length urls))
             (Z.of_nat (length mock_transcriptions)) (Z.of_nat (length chunks))))
    (fun e => mret (IngestFailure (str_exn e))).

(** An entry of the dictionary [compare_distance_metrics] returns. *)
Inductive metric_report : Type :=
| MetricResults (top_results : list string) (scores : list score)
| MetricError (error : string).

(** [self.vector_db.distance_functions.keys()] *)
Definition distance_functions_keys : list string :=
  ["cosine"; "euclidean"; "manhattan"].

(** One iteration of the loop of [compare_distance_metrics]. With
    [return_as_text=False] the search returns tuples; the other shape is
    not reached. *)
Definition compare_step (user_query : string) (k : Z) (metric : string)
    (results : list (string * metric_report))
  : M EnhancedRAGPipeline (list (string * metric_report)) :=
  try_except
    (search_results ←
       zoom vector_db set_vector_db
         (search_by_text user_query k (DStr metric) false false None);
     rows ← match search_results with
            | Tuples l => mret l
            | Texts _ => raise (ValueError "string index out of range")
            end;
     mret (assoc_set metric
             (MetricResults (map (fun r : result => fst (fst r)) rows)
                            (map (fun r : result => result_score r) rows))
             results))
    (fun e => mret (assoc_set metric (MetricError (str_exn e)) results)).

(** [EnhancedRAGPipeline.compare_distance_metrics] *)
Definition compare_distance_metrics (user_query : string) (k : Z)
  : M EnhancedRAGPipeline (list (string * metric_report)) :=
  for_each distance_functions_keys (compare_step user_query k) [].

End PipelineIngest.

(** ** More concrete collaborators *)

Module Sample.

(** One text file is readable; every other path is refused the way
    [TextFileLoader.load] refuses it. *)
Definition notes : DocumentMetadata :=
  DocumentMetadata_init "notes.txt" "txt" 11 (VDatetime "2024-01-01 00:00:00")
    (VDatetime "2024-01-01 00:00:00") (VInt 1).

Definition files : TextFileLoader := {|
  load_file_documents := fun path =>
    if bool_decide (path = "notes.txt") then Ok (["hello world"], [notes])
    else Raise (ValueError
           "Provided path is neither a valid directory nor a .txt/.pdf file.")
|}.

(** A matcher that finds an id only in the short link to one video. *)
Definition re : Re := {|
  re_search_group1 := fun _ url =>
    if bool_decide (url = "https://youtu.be/dQw4w9WgXcQ") then Some "dQw4w9WgXcQ"
    else None
|}.

Definition hashlib : Hashlib := {| md5_hexdigest := fun _ => "0" |}.

Definition splitter : CharacterTextSplitter :=
  {| chunk_size := 8; chunk_overlap := 2 |}.

(** A new pipeline with small chunks. *)
Definition pipeline : @EnhancedRAGPipeline Example.Z_numpy := {|
  distance_metric := "cosine";
  vector_db := {| objects := []; db := VectorDatabase_init |};
  text_splitter := splitter;
  stats := {| documents_processed := 0; chunks_created := 0;
              queries_processed := 0; txt_files_processed := 0;
              pdf_files_processed := 0; youtube_videos_processed := 0 |}
|}.

End Sample.

(** ** Vocabulary of the properties *)

Section Vocabulary.
Context `{NP : Numpy}.

(** [a <= b] on scores, through the [<] that [list.sort] uses: not [b < a]. *)
Definition score_le (a b : score) : Prop := score_ltb b a = false.

(** The two facts about [<] that make it the strict part of a total
    preorder, as it is on floats other than NaN. *)
Definition lt_asymmetric : Prop :=
  forall a b : score, score_ltb a b = true -> score_ltb b a = false.
Definition le_transitive : Prop :=
  forall a b c : score, score_le a b -> score_le b c -> score_le a c.

(** The same two facts for the scores of one list only: among them [<] is
    the strict part of a total preorder. Floats none of which is NaN are
    comparable; a NaN beside a smaller and a larger number is not, as
    neither of them is below the NaN nor the NaN below either. *)
Definition comparable_scores (l : list result) : Prop :=
  (forall a b : result, a ∈ l -> b ∈ l ->
     score_ltb (result_score a) (result_score b) = true ->
     score_ltb (result_score b) (result_score a) = false)
  /\ (forall a b c : result, a ∈ l -> b ∈ l -> c ∈ l ->
        score_le (result_score a) (result_score b) ->
        score_le (result_score b) (result_score c) ->
        score_le (result_score a) (result_score c)).

(** Two results tie: neither score is below the other. *)
Definition tie (a b : result) : bool :=
  negb (score_ltb (result_score a) (result_score b))
  && negb (score_ltb (result_score b) (result_score a)).

(** The scores of a result list never decrease (never increase) from one
    position to any later one. *)
Definition non_decreasing (l : list result) : Prop :=
  StronglySorted (fun a b => score_le (result_score a) (result_score b)) l.
Definition non_increasing (l : list result) : Prop :=
  StronglySorted (fun a b => score_le (result_score b) (result_score a)) l.

(** The records that pass the filter, scored by [distance_func], in the
    order of the store. *)
Definition candidates (h : heap) (distance_func : vec -> vec -> score)
    (query_vector : vec) (file_type_filter : option string)
    (items : list (string * VectorWithMetadata)) : list result :=
  omap (fun item : string * VectorWithMetadata =>
          if filter_active file_type_filter
             && file_type_differs (deref h (metadata (snd item))) file_type_filter
          then None
          else Some (fst item, distance_func query_vector (vector (snd item)),
                     metadata (snd item)))
       items.

(** A result is drawn from the store: its key and metadata are those of a
    stored record, and its score is [distance_func] of that record's
    vector. *)
Definition drawn_from (w : world) (distance_func : vec -> vec -> score)
    (query_vector : vec) (r : result) : Prop :=
  exists v : VectorWithMetadata,
    (fst (fst r), v) ∈ vectors (db w)
    /\ result_score r = distance_func query_vector (vector v)
    /\ snd r = metadata v.

(** The [file_type] entry of the metadata of a stored record, if it has
    one. *)
Definition file_type_of (w : world) (item : string * VectorWithMetadata)
  : option pyval :=
  assoc_get "file_type" (deref (objects w) (metadata (snd item))).

(** The records among [items] whose [file_type] entry is [entry], and
    the number of such records in the store. *)
Definition records_of_file_type (w : world) (entry : option pyval)
    (items : list (string * VectorWithMetadata))
  : list (string * VectorWithMetadata) :=
  filter (fun item => file_type_of w item = entry) items.

Definition count_file_type (w : world) (entry : option pyval) : Z :=
  Z.of_nat (length (records_of_file_type w entry (vectors (db w)))).

(** No key [chunk_j] with [j] at or above the counter is in use. *)
Definition counter_fresh (d : VectorDatabase) : Prop :=
  forall j : Z, chunk_counter d <= j -> assoc_get (chunk_key j) (vectors d) = None.

End Vocabulary.

(** The sum of the counts of a [file_types] dictionary. *)
Definition total_count (file_types : list (pyval * Z)) : Z :=
  foldr (fun entry acc => snd entry + acc) 0 file_types.

(** The number of characters of a window that starts at [start] in a text
    of [len] characters and is [width] wide where the text allows. *)
Definition window_length (len start width : nat) : nat :=
  Nat.min width (len - start).

(** A URL in which [extract_video_id] finds a non-empty id. *)
Definition url_is_valid `{RE : Re} (url : string) : bool :=
  match get_video_info url with
  | VideoInfo _ _ _ _ _ _ _ => true
  | VideoError _ => false
  end.

(** * Properties *)

(** ** Runs of the model *)

(** The example of the specification: size 4, overlap 2 on ten letters. *)
Example split_ABCDEFGHIJ :
  split {| chunk_size := 4; chunk_overlap := 2 |} "ABCDEFGHIJ"
  = Ok ["ABCD"; "CDEF"; "EFGH"; "GHIJ"; "IJ"].
Proof. vm_compute. reflexivity. Qed.

Example search_cosine_two_chunks :
  snd (@search Example.Z_numpy [1; 0] 2 (DStr "cosine") None Example.two_chunks)
  = Ok [("chunk_0", 1, 0%nat); ("chunk_1", 0, 1%nat)].
Proof. vm_compute. reflexivity. Qed.

Example search_manhattan_two_chunks :
  snd (@search Example.Z_numpy [1; 0] 2 (DStr "manhattan") None Example.two_chunks)
  = Ok [("chunk_0", 0, 0%nat); ("chunk_1", 2, 1%nat)].
Proof. vm_compute. reflexivity. Qed.

Example search_filter_two_chunks :
  snd (@search Example.Z_numpy [1; 0] 2 DNone (Some "pdf") Example.two_chunks)
  = Ok [("chunk_1", 0, 1%nat)].
Proof. vm_compute. reflexivity. Qed.

Example query_two_chunks :
  snd (@query Example.Z_numpy Example.embedding_ok Example.chat_ok
         "cat" 1 None "detailed" false None Example.pipeline)
  = Ok (QuerySuccess "I don't know" ["cat"] ["1.000"] ["Unknown_chunk_N/A (txt)"] None).
Proof. vm_compute. reflexivity. Qed.


(** ** The splitter *)

Lemma substring_whole (s : string) (m : nat) :
  (String.length s <= m)%nat -> String.substring 0 m s = s.
Proof.
  revert m. induction s as [|c s IH]; intros [|m] Hm; simpl in *; try lia; try done.
  f_equal. apply IH. lia.
Qed.

Lemma str_slice_whole (s : string) (hi : Z) :
  Z.of_nat (String.length s) <= hi -> str_slice s 0 hi = s.
Proof.
  intros Hhi. unfold str_slice, adjust_index.
  destruct (Z.ltb_spec 0 0); [lia|].
  destruct (Z.ltb_spec hi 0); [lia|].
  rewrite Z.min_l by lia. rewrite Z.min_r by lia. simpl.
  apply substring_whole. lia.
Qed.

(** A window that reaches the end of the text is a suffix of the text. *)
Lemma str_slice_to_end (s : string) (lo hi : Z) :
  0 <= lo -> Z.of_nat (String.length s) <= hi ->
  str_slice s lo hi = str_slice s lo (Z.of_nat (String.length s)).
Proof.
  intros Hlo Hhi. unfold str_slice, adjust_index.
  destruct (Z.ltb_spec hi 0); [lia|].
  destruct (Z.ltb_spec (Z.of_nat (String.length s)) 0); [lia|].
  rewrite (Z.min_r hi) by lia. rewrite Z.min_id. reflexivity.
Qed.

Lemma range0_pos (stop step : Z) :
  0 < step ->
  range0 stop step
  = Ok (map (fun j : nat => Z.of_nat j * step)
            (seq 0 (Z.to_nat ((stop + step - 1) / step)))).
Proof.
  intros Hstep. unfold range0.
  destruct (Z.eqb_spec step 0); [lia|].
  destruct (Z.ltb_spec 0 step); [done|lia].
Qed.

(** C8: construction fails exactly when chunk_size <= chunk_overlap. The
    failure is the AssertionError of the [assert] in [__init__], the
    configuration error of the specification. *)
Theorem splitter_init_checks_sizes (cs co : Z) :
  (cs <= co ->
   exists msg, CharacterTextSplitter_init cs co = Raise (AssertionError msg))
  /\ (co < cs ->
      CharacterTextSplitter_init cs co
      = Ok {| chunk_size := cs; chunk_overlap := co |}).
Proof.
  unfold CharacterTextSplitter_init. split; intros Hlt.
  - destruct (Z.ltb_spec co cs); [lia|]. eauto.
  - destruct (Z.ltb_spec co cs); [done|lia].
Qed.

Lemma splitter_init_checks_sizes_witness :
  (exists msg, CharacterTextSplitter_init 200 200 = Raise (AssertionError msg))
  /\ CharacterTextSplitter_init 1000 200
     = Ok {| chunk_size := 1000; chunk_overlap := 200 |}.
Proof.
  split.
  - apply (splitter_init_checks_sizes 200 200). lia.
  - apply (splitter_init_checks_sizes 1000 200). lia.
Defined.

(** C3 as stated fails: with chunk_size 10 and chunk_overlap 9 the stride is
    1, and the five-letter text "hello" (shorter than the overlap) is split
    into five windows; the empty text is split into none. *)
Lemma split_short_text_counterexample :
  CharacterTextSplitter_init 10 9 = Ok {| chunk_size := 10; chunk_overlap := 9 |}
  /\ Z.of_nat (String.length "hello") < 9
  /\ split {| chunk_size := 10; chunk_overlap := 9 |} "hello"
     = Ok ["hello"; "ello"; "llo"; "lo"; "o"]
  /\ split {| chunk_size := 10; chunk_overlap := 9 |} "hello" <> Ok ["hello"]
  /\ split {| chunk_size := 10; chunk_overlap := 9 |} "" = Ok [].
Proof. vm_compute. repeat split; try done. Qed.

(** C3, amended: for a valid splitter and a text shorter than chunk_overlap,
    [split] returns ceil(len / stride) windows, the j-th being the suffix of
    the text from offset j * stride; the first window of a non-empty text is
    the whole text, and the result is the single window [text] exactly when
    0 < len <= stride. *)
Theorem split_short_text (cs co : Z) (sp : CharacterTextSplitter) (text : string) :
  0 < co ->
  CharacterTextSplitter_init cs co = Ok sp ->
  Z.of_nat (String.length text) < co ->
  let len := Z.of_nat (String.length text) in
  let stride := cs - co in
  split sp text
  = Ok (map (fun j : nat => str_slice text (Z.of_nat j * stride) len)
            (seq 0 (Z.to_nat ((len + stride - 1) / stride))))
  /\ (text <> "" -> exists rest, split sp text = Ok (text :: rest))
  /\ (split sp text = Ok [text] <-> 0 < len <= stride).
Proof.
  intros Hco Hinit Hlen len stride.
  unfold CharacterTextSplitter_init in Hinit.
  destruct (Z.ltb_spec co cs) as [Hlt|]; [|done].
  injection Hinit as <-.
  assert (Hsplit : split {| chunk_size := cs; chunk_overlap := co |} text
    = Ok (map (fun j : nat => str_slice text (Z.of_nat j * stride) len)
              (seq 0 (Z.to_nat ((len + stride - 1) / stride))))).
  { unfold split. simpl. rewrite range0_pos by lia. f_equal.
    rewrite map_map. apply map_ext. intros j.
    apply str_slice_to_end; subst len stride; nia. }
  assert (Hstride : 0 < stride) by (subst stride; lia).
  split; [exact Hsplit|]. rewrite Hsplit. split.
  - intros Hne.
    assert (0 < len) by (subst len; destruct text; [done|simpl; lia]).
    assert (1 <= (len + stride - 1) / stride)
      by (apply Z.div_le_lower_bound; lia).
    destruct (Z.to_nat ((len + stride - 1) / stride)) as [|n] eqn:Hn; [lia|].
    simpl. rewrite str_slice_whole by (subst len; lia). eauto.
  - split.
    + intros Heq.
      destruct (Z.to_nat ((len + stride - 1) / stride)) as [|[|n]] eqn:Hn;
        simpl in Heq; try done.
      assert (Hq : (len + stride - 1) / stride = 1) by lia.
      assert (0 <= len) by (subst len; lia).
      pose proof (Z.mul_div_le (len + stride - 1) stride Hstride).
      pose proof (Z.mod_pos_bound (len + stride - 1) stride Hstride).
      pose proof (Z.div_mod (len + stride - 1) stride ltac:(lia)).
      rewrite Hq in *. lia.
    + intros [Hpos Hle].
      assert (Hq : (len + stride - 1) / stride = 1).
      { symmetry. apply (Z.div_unique _ _ 1 (len - 1)); lia. }
      rewrite Hq. simpl. rewrite str_slice_whole by (subst len; lia). done.
Qed.

Lemma split_short_text_witness :
  let sp := {| chunk_size := 8; chunk_overlap := 3 |} in
  split sp "ab" = Ok ["ab"] /\ split sp "" = Ok [].
Proof.
  destruct (split_short_text 8 3 {| chunk_size := 8; chunk_overlap := 3 |} "ab")
    as (_ & _ & Hone); [lia|reflexivity|simpl; lia|].
  destruct (split_short_text 8 3 {| chunk_size := 8; chunk_overlap := 3 |} "")
    as (Hnone & _); [lia|reflexivity|simpl; lia|].
  split.
  - apply Hone. simpl. lia.
  - exact Hnone.
Defined.

(** ** Slices and the sort *)

Ltac run_M :=
  unfold mbind, M_bind, bind, mret, M_ret, ret, get, modify, call,
    try_except, zoom, raise; simpl.

Lemma adjust_index_0 (n : Z) : 0 <= n -> adjust_index n 0 = 0.
Proof. intros Hn. unfold adjust_index. simpl. lia. Qed.

Lemma slice_to_nonneg {A} (l : list A) (k : Z) :
  0 <= k -> slice_to l k = take (Z.to_nat k) l.
Proof.
  intros Hk. unfold slice_to, slice. rewrite adjust_index_0 by lia.
  change (Z.to_nat 0) with 0%nat. rewrite drop_0, Z.sub_0_r.
  unfold adjust_index. destruct (Z.ltb_spec k 0); [lia|].
  destruct (Z.le_ge_cases k (Z.of_nat (length l))).
  - rewrite Z.min_l by lia. done.
  - rewrite Z.min_r by lia. rewrite Nat2Z.id.
    rewrite !take_ge by lia. done.
Qed.

Lemma slice_to_neg {A} (l : list A) (k : Z) :
  k < 0 -> slice_to l k = take (length l - Z.to_nat (- k)) l.
Proof.
  intros Hk. unfold slice_to, slice. rewrite adjust_index_0 by lia.
  change (Z.to_nat 0) with 0%nat. rewrite drop_0, Z.sub_0_r.
  unfold adjust_index. destruct (Z.ltb_spec k 0); [|lia].
  f_equal. lia.
Qed.

Lemma slice_to_elem_of {A} (l : list A) (k : Z) (x : A) :
  x ∈ slice_to l k -> x ∈ l.
Proof.
  unfold slice_to, slice. intros Hx.
  apply elem_of_take in Hx as (i & Hi & _).
  apply list_elem_of_lookup_2 in Hi.
  rewrite <- (take_drop (Z.to_nat (adjust_index (Z.of_nat (length l)) 0)) l).
  apply elem_of_app. by right.
Qed.

Lemma slice_to_StronglySorted {A} (R : relation A) (l : list A) (k : Z) :
  StronglySorted R l -> StronglySorted R (slice_to l k).
Proof.
  intros Hl. unfold slice_to, slice.
  match goal with
  | |- StronglySorted _ (take ?n (drop ?a _)) =>
      apply (StronglySorted_app_1_l R _ (drop n (drop a l)));
      rewrite take_drop;
      apply (StronglySorted_app_1_r R (take a l));
      by rewrite take_drop
  end.
Qed.

Lemma StronglySorted_rev {A} (R : relation A) (l : list A) :
  StronglySorted R l -> StronglySorted (fun a b => R b a) (rev l).
Proof.
  induction 1 as [|x l Hl IH Hx]; simpl; [constructor|].
  apply StronglySorted_app_2; [|done|repeat constructor].
  intros x1 x2 H1 H2. apply list_elem_of_singleton in H2 as ->.
  rewrite Forall_forall in Hx. apply Hx.
  apply list_elem_of_In, in_rev, list_elem_of_In in H1. done.
Qed.

Section SortFacts.
Context `{NP : Numpy}.

Lemma sort_insert_Permutation (x : result) (l : list result) :
  sort_insert x l ≡ₚ x :: l.
Proof.
  induction l as [|y l IH]; simpl; [done|].
  destruct (score_ltb _ _); [|done].
  rewrite IH. apply Permutation_swap.
Qed.

Lemma sort_asc_Permutation (l : list result) : sort_asc l ≡ₚ l.
Proof.
  induction l as [|x l IH]; simpl; [done|].
  by rewrite sort_insert_Permutation, IH.
Qed.

Lemma sorted_Permutation (l : list result) (reverse : bool) :
  sorted l reverse ≡ₚ l.
Proof.
  unfold sorted. destruct reverse; [|apply sort_asc_Permutation].
  by rewrite <- Permutation_rev, sort_asc_Permutation, <- Permutation_rev.
Qed.

Lemma comparable_scores_total (l : list result) :
  lt_asymmetric -> le_transitive -> comparable_scores l.
Proof.
  intros Hasym Htrans. split.
  - intros a b _ _. apply Hasym.
  - intros a b c _ _ _. apply Htrans.
Qed.

Lemma comparable_scores_subseteq (l l' : list result) :
  l' ⊆ l -> comparable_scores l -> comparable_scores l'.
Proof.
  intros Hsub [Hasym Htrans]. split.
  - intros a b Ha Hb. apply Hasym; by apply Hsub.
  - intros a b c Ha Hb Hc. apply Htrans; by apply Hsub.
Qed.

Lemma sort_insert_sorted (L : list result) (x : result) (l : list result) :
  comparable_scores L -> x ∈ L -> l ⊆ L ->
  non_decreasing l -> non_decreasing (sort_insert x l).
Proof.
  intros [Hasym Htrans] Hx Hsub. unfold non_decreasing.
  induction 1 as [|y l Hl IH Hy]; simpl; [repeat constructor|].
  assert (HyL : y ∈ L) by (apply Hsub; left).
  assert (HlL : l ⊆ L) by (intros z Hz; apply Hsub; by right).
  destruct (score_ltb (result_score y) (result_score x)) eqn:Hlt.
  - constructor; [by apply IH|].
    rewrite Forall_forall. intros z Hz.
    rewrite sort_insert_Permutation in Hz.
    apply elem_of_cons in Hz as [->|Hz].
    + by apply Hasym.
    + rewrite Forall_forall in Hy. by apply Hy.
  - constructor; [by constructor|].
    constructor; [done|].
    rewrite Forall_forall in Hy |- *. intros z Hz.
    apply (Htrans x y z); auto.
Qed.

Lemma sort_asc_sorted (L : list result) (l : list result) :
  comparable_scores L -> l ⊆ L -> non_decreasing (sort_asc l).
Proof.
  intros Hcomp. induction l as [|x l IH]; intros Hsub; simpl; [constructor|].
  apply (sort_insert_sorted L); [done|apply Hsub; left| |].
  - intros z Hz. rewrite sort_asc_Permutation in Hz. apply Hsub. by right.
  - apply IH. intros z Hz. apply Hsub. by right.
Qed.

Lemma sorted_ascending (l : list result) :
  comparable_scores l -> non_decreasing (sorted l false).
Proof. intros Hcomp. by apply (sort_asc_sorted l). Qed.

Lemma sorted_descending (l : list result) :
  comparable_scores l -> non_increasing (sorted l true).
Proof.
  intros Hcomp. unfold sorted, non_increasing.
  apply (StronglySorted_rev
           (fun a b => score_le (result_score a) (result_score b))).
  apply (sort_asc_sorted l); [done|].
  intros z Hz. by apply list_elem_of_In, in_rev, list_elem_of_In in Hz.
Qed.

(** The sort is stable: results that tie keep the order they had. *)
Lemma sort_insert_stable (L : list result) (r x : result) (l : list result) :
  comparable_scores L -> r ∈ L -> x ∈ L -> l ⊆ L ->
  filter (fun a => tie r a) (sort_insert x l) = filter (fun a => tie r a) (x :: l).
Proof.
  intros [Hasym Htrans] Hr Hx. induction l as [|y l IH]; intros Hsub; [done|].
  assert (HyL : y ∈ L) by (apply Hsub; left).
  assert (HlL : l ⊆ L) by (intros z Hz; apply Hsub; by right).
  simpl. destruct (score_ltb (result_score y) (result_score x)) eqn:Hlt; [|done].
  rewrite (filter_cons _ y), IH by done. rewrite !(filter_cons _ x), !(filter_cons _ y).
  destruct (decide (tie r y)) as [Hy|Hy]; destruct (decide (tie r x)) as [Hx'|Hx'];
    try done.
  exfalso. unfold tie in Hy, Hx'.
  apply andb_prop_elim in Hy as [Hy1 Hy2]. apply andb_prop_elim in Hx' as [Hx1 Hx2].
  apply negb_prop_elim, Is_true_false_1 in Hy1, Hy2, Hx1, Hx2.
  assert (score_le (result_score x) (result_score y)) as Hle.
  { apply (Htrans x r y); auto. }
  unfold score_le in Hle. congruence.
Qed.

Lemma sort_asc_stable (L : list result) (r : result) (l : list result) :
  comparable_scores L -> r ∈ L -> l ⊆ L ->
  filter (fun a => tie r a) (sort_asc l) = filter (fun a => tie r a) l.
Proof.
  intros Hcomp Hr. induction l as [|x l IH]; intros Hsub; [done|].
  simpl. rewrite (sort_insert_stable L); [|done|done|apply Hsub; left|].
  - rewrite !(filter_cons _ x), IH; [done|].
    intros z Hz. apply Hsub. by right.
  - intros z Hz. rewrite sort_asc_Permutation in Hz. apply Hsub. by right.
Qed.

Lemma filter_rev {A} (P : A -> Prop) `{!forall x, Decision (P x)} (l : list A) :
  filter P (rev l) = rev (filter P l).
Proof.
  induction l as [|x l IH]; [done|].
  simpl. rewrite filter_app, IH, !filter_cons, filter_nil.
  destruct (decide (P x)); simpl; [done|by rewrite app_nil_r].
Qed.

Lemma sorted_stable (l : list result) (reverse : bool) (r : result) :
  comparable_scores l -> r ∈ l ->
  filter (fun a => tie r a) (sorted l reverse) = filter (fun a => tie r a) l.
Proof.
  intros Hcomp Hr. unfold sorted. destruct reverse.
  - rewrite filter_rev, (sort_asc_stable l), filter_rev, rev_involutive; try done.
    intros z Hz. by apply list_elem_of_In, in_rev, list_elem_of_In in Hz.
  - by apply (sort_asc_stable l).
Qed.

End SortFacts.

(** ** The vector store: what the read operations compute *)

Section ReadFacts.
Context `{NP : Numpy}.

Lemma search_loop (w : world) (distance_func : vec -> vec -> score)
    (query_vector : vec) (file_type_filter : option string)
    (items : list (string * VectorWithMetadata)) (scores : list result) :
  for_each items (search_step distance_func query_vector file_type_filter) scores w
  = (w, Ok (scores ++ candidates (objects w) distance_func query_vector
                                 file_type_filter items)).
Proof.
  revert scores. induction items as [|[key v] items IH]; intros scores; simpl.
  - unfold candidates. simpl. by rewrite app_nil_r.
  - unfold candidates in *. unfold bind at 1. unfold search_step at 1. run_M.
    destruct (filter_active file_type_filter
              && file_type_differs (deref (objects w) (metadata v)) file_type_filter);
      simpl; rewrite IH; [done|].
    by rewrite <- app_assoc.
Qed.

(** [search] returns the sorted candidates cut at [k], in the state it
    started from. *)
Lemma search_run (w : world) (query_vector : vec) (k : Z)
    (distance_measure : measure) (file_type_filter : option string) :
  search query_vector k distance_measure file_type_filter w
  = (w, Ok (slice_to
              (sorted (candidates (objects w)
                         (select_distance_func distance_measure)
                         query_vector file_type_filter (vectors (db w)))
                      (reverse_flag distance_measure))
              k)).
Proof.
  unfold search. run_M. by rewrite search_loop.
Qed.

Lemma retrieve_from_key_run (w : world) (key : string) :
  retrieve_from_key key w
  = (w, Ok (vector <$> assoc_get key (vectors (db w)))).
Proof. unfold retrieve_from_key. run_M. by destruct (assoc_get _ _). Qed.

Lemma stats_loop (w : world) (items : list (string * VectorWithMetadata))
    (file_types : list (pyval * Z)) :
  exists file_types', for_each items stats_step file_types w = (w, Ok file_types').
Proof.
  revert file_types. induction items as [|[key v] items IH]; intros file_types; simpl.
  - by eexists.
  - unfold bind at 1. unfold stats_step at 1. run_M. apply IH.
Qed.

Lemma get_database_stats_run (w : world) :
  exists file_types,
    get_database_stats w
    = (w, Ok {| total_vectors := Z.of_nat (length (vectors (db w)));
                file_types := file_types;
                available_distance_metrics := ["cosine"; "euclidean"; "manhattan"] |}).
Proof.
  unfold get_database_stats. run_M.
  destruct (stats_loop w (vectors (db w)) []) as [ft ->]. by eexists.
Qed.

Lemma candidates_drawn_from (w : world) (distance_func : vec -> vec -> score)
    (query_vector : vec) (file_type_filter : option string) (r : result) :
  r ∈ candidates (objects w) distance_func query_vector file_type_filter
        (vectors (db w)) ->
  drawn_from w distance_func query_vector r
  /\ (filter_active file_type_filter = true ->
      assoc_get "file_type" (deref (objects w) (snd r))
      = VStr <$> file_type_filter).
Proof.
  unfold candidates. rewrite list_elem_of_omap.
  intros ([key v] & Hin & Hsome). simpl in Hsome.
  destruct (filter_active file_type_filter) eqn:Hactive; simpl in Hsome.
  - destruct (file_type_differs _ _) eqn:Hdiff; [done|].
    injection Hsome as <-. simpl. split; [by exists v|].
    intros _. unfold file_type_differs in Hdiff.
    destruct (assoc_get "file_type" _) as [[| t | |]|]; try done.
    destruct file_type_filter as [s|]; [|done].
    simpl. apply negb_false_iff, bool_decide_eq_true in Hdiff. by subst.
  - injection Hsome as <-. simpl. split; [by exists v|done].
Qed.

End ReadFacts.

(** ** The vector store: search *)

Lemma Z_lt_asymmetric : @lt_asymmetric Example.Z_numpy.
Proof. intros a b. simpl. rewrite Z.ltb_lt, Z.ltb_ge. lia. Qed.

Lemma Z_le_transitive : @le_transitive Example.Z_numpy.
Proof. intros a b c. unfold score_le. simpl. rewrite !Z.ltb_ge. lia. Qed.

Section SearchTheorems.
Context `{NP : Numpy}.

Lemma candidates_length (h : heap) (f : vec -> vec -> score) (q : vec)
    (filt : option string) (items : list (string * VectorWithMetadata)) :
  (length (candidates h f q filt items) <= length items)%nat.
Proof.
  unfold candidates. generalize (fun item : string * VectorWithMetadata =>
    if filter_active filt && file_type_differs (deref h (metadata (snd item))) filt
    then None
    else Some (fst item, f q (vector (snd item)), metadata (snd item))).
  intros g. induction items as [|x items IH]; [done|].
  change (omap g (x :: items))
    with (match g x with Some y => y :: omap g items | None => omap g items end).
  destruct (g x); simpl; lia.
Qed.

Lemma search_result_elem_of (w : world) (q : vec) (k : Z) (m : measure)
    (filt : option string) (r : result) :
  r ∈ slice_to (sorted (candidates (objects w) (select_distance_func m) q filt
                          (vectors (db w))) (reverse_flag m)) k ->
  r ∈ candidates (objects w) (select_distance_func m) q filt (vectors (db w)).
Proof.
  intros Hr. apply slice_to_elem_of in Hr. by rewrite sorted_Permutation in Hr.
Qed.

Lemma sorted_length (l : list result) (reverse : bool) :
  length (sorted l reverse) = length l.
Proof. apply Permutation_length, sorted_Permutation. Qed.

(** An unknown name is scored by the cosine similarity and sorted in
    ascending order. *)
Lemma unknown_name_flags (name : string) :
  name <> "cosine" -> name <> "euclidean" -> name <> "manhattan" ->
  select_distance_func (DStr name) = cosine_similarity
  /\ reverse_flag (DStr name) = false.
Proof.
  intros H1 H2 H3. unfold select_distance_func, distance_functions_get, reverse_flag.
  simpl. rewrite !decide_False by done. by rewrite bool_decide_eq_false_2.
Qed.

(** C9: [search], [retrieve_from_key] and [get_database_stats] return in
    the state they were called in: the records, the text-to-key mapping,
    the key counter and the metadata dictionaries are all unchanged,
    whether or not the key looked up is present. *)
Theorem read_operations_keep_store (w : world) (q : vec) (k : Z) (m : measure)
    (filt : option string) (key : string) :
  fst (search q k m filt w) = w
  /\ fst (retrieve_from_key key w) = w
  /\ fst (get_database_stats w) = w.
Proof.
  rewrite search_run, retrieve_from_key_run.
  destruct (get_database_stats_run w) as [ft ->]. done.
Qed.

Lemma reverse_flag_true (m : measure) :
  reverse_flag m = true <-> m = DNone \/ m = DStr "cosine".
Proof.
  unfold reverse_flag. destruct m as [|name|f]; simpl.
  - split; auto.
  - rewrite orb_false_r, orb_diag. rewrite bool_decide_eq_true.
    split; [intros ->; by right|]. by intros [|[= ->]].
  - split; [done|]. by intros [|].
Qed.

(** C10: with k = 0 [search] returns the empty list. There is a list
    [full], the one [search] returns when k is the size of the store, that
    holds every candidate once and, when the candidates' scores are
    comparable, is sorted (downwards for no metric and for "cosine",
    upwards otherwise) with ties in the order of the store; with a negative
    k [search] returns [full] without its last |k| entries, that is, as
    many results as there are candidates less |k|. No call raises. *)
Theorem search_nonpositive_k (w : world) (q : vec) (m : measure)
    (filt : option string) :
  search q 0 m filt w = (w, Ok [])
  /\ exists full,
       search q (Z.of_nat (length (vectors (db w)))) m filt w = (w, Ok full)
       /\ full ≡ₚ candidates (objects w) (select_distance_func m) q filt
                    (vectors (db w))
       /\ (comparable_scores (candidates (objects w) (select_distance_func m) q
                                filt (vectors (db w))) ->
           (m = DNone \/ m = DStr "cosine" -> non_increasing full)
           /\ (m <> DNone -> m <> DStr "cosine" -> non_decreasing full)
           /\ (forall r,
                 r ∈ candidates (objects w) (select_distance_func m) q filt
                       (vectors (db w)) ->
                 filter (fun a => tie r a) full
                 = filter (fun a => tie r a)
                     (candidates (objects w) (select_distance_func m) q filt
                        (vectors (db w)))))
       /\ (forall k : Z, k < 0 ->
             search q k m filt w
             = (w, Ok (take (length full - Z.to_nat (- k)) full))
             /\ length (take (length full - Z.to_nat (- k)) full)
                = (length (candidates (objects w) (select_distance_func m) q filt
                             (vectors (db w)))
                   - Z.to_nat (- k))%nat).
Proof.
  rewrite !search_run. split; [by rewrite slice_to_nonneg|].
  set (c := candidates _ _ _ _ _).
  assert (Hfull : slice_to (sorted c (reverse_flag m))
                    (Z.of_nat (length (vectors (db w))))
                  = sorted c (reverse_flag m)).
  { rewrite slice_to_nonneg by lia. rewrite Nat2Z.id. apply take_ge.
    rewrite sorted_length. apply candidates_length. }
  exists (sorted c (reverse_flag m)). rewrite Hfull. split; [done|].
  split; [apply sorted_Permutation|]. split.
  - intros Hcomp. split; [|split].
    + intros Hm. apply reverse_flag_true in Hm. rewrite Hm.
      by apply sorted_descending.
    + intros H1 H2. destruct (reverse_flag m) eqn:Hflag.
      * apply reverse_flag_true in Hflag as [|]; done.
      * by apply sorted_ascending.
    + intros r Hr. by apply sorted_stable.
  - intros k Hk. rewrite search_run. fold c. rewrite slice_to_neg by done.
    split; [done|]. rewrite length_take, sorted_length. lia.
Qed.

(** C5 as stated fails for a negative k; amended: for every k, every
    result of [search] is drawn from the store, and under a non-empty
    file-type filter each result's metadata has that file type; for every
    k >= 0 [search] returns at most k results. *)
Theorem search_at_most_k (w : world) (q : vec) (k : Z) (m : measure)
    (filt : option string) :
  exists res,
    search q k m filt w = (w, Ok res)
    /\ (0 <= k -> Z.of_nat (length res) <= k)
    /\ (forall r, r ∈ res -> drawn_from w (select_distance_func m) q r)
    /\ (forall s, filt = Some s -> s <> "" ->
        forall r, r ∈ res ->
          assoc_get "file_type" (deref (objects w) (snd r)) = Some (VStr s)).
Proof.
  rewrite search_run. eexists. split; [reflexivity|]. split; [|split].
  - intros Hk. rewrite slice_to_nonneg by done. rewrite length_take. lia.
  - intros r Hr. apply search_result_elem_of in Hr.
    by apply candidates_drawn_from in Hr as [? _].
  - intros s -> Hs r Hr. apply search_result_elem_of in Hr.
    apply candidates_drawn_from in Hr as [_ Hft]. apply Hft.
    simpl. by rewrite bool_decide_eq_false_2.
Qed.

(** C6 as stated fails when a score is NaN; amended: [search] returns
    without raising, and when the candidates' scores are comparable the
    scores returned for no metric or for "cosine" never increase, and
    those returned for "euclidean" or "manhattan" never decrease. *)
Theorem search_sorted_by_name (w : world) (q : vec) (k : Z) (m : measure)
    (filt : option string) :
  exists res,
    search q k m filt w = (w, Ok res)
    /\ (comparable_scores (candidates (objects w) (select_distance_func m) q
                             filt (vectors (db w))) ->
        (m = DNone \/ m = DStr "cosine" -> non_increasing res)
        /\ (m = DStr "euclidean" \/ m = DStr "manhattan" -> non_decreasing res)).
Proof.
  rewrite search_run. eexists. split; [reflexivity|]. intros Hcomp. split.
  - intros Hm. assert (reverse_flag m = true) as -> by (by destruct Hm as [-> | ->]).
    apply slice_to_StronglySorted. by apply sorted_descending.
  - intros Hm. assert (reverse_flag m = false) as -> by (by destruct Hm as [-> | ->]).
    apply slice_to_StronglySorted. by apply sorted_ascending.
Qed.


End SearchTheorems.

Lemma Z_comparable_scores (l : list (@result Example.Z_numpy)) :
  @comparable_scores Example.Z_numpy l.
Proof. apply comparable_scores_total; [apply Z_lt_asymmetric|apply Z_le_transitive]. Qed.

Lemma search_nonpositive_k_witness :
  @search Example.Z_numpy [1; 0] (-1) DNone None Example.two_chunks
  = (Example.two_chunks, Ok [("chunk_0", 1, 0%nat)])
  /\ exists full,
       @search Example.Z_numpy [1; 0] 2 DNone None Example.two_chunks
       = (Example.two_chunks, Ok full)
       /\ non_increasing full.
Proof.
  destruct (@search_nonpositive_k Example.Z_numpy Example.two_chunks [1; 0] DNone None)
    as (_ & full & Hfull & _ & Hsorted & Hneg).
  destruct (Hneg (-1)) as [Hk _]; [lia|].
  destruct (Hsorted (Z_comparable_scores _)) as (Hdesc & _ & _).
  split.
  - rewrite Hk. vm_compute in Hfull. injection Hfull as <-. reflexivity.
  - exists full. split; [exact Hfull|]. apply Hdesc. by left.
Defined.

(** C5 fails as stated: k = -1 on a store of two records returns one result,
    which is more than k. *)
Lemma search_at_most_k_counterexample :
  exists res,
    @search Example.Z_numpy [1; 0] (-1) DNone None Example.two_chunks
    = (Example.two_chunks, Ok res)
    /\ ~ (Z.of_nat (length res) <= -1).
Proof. eexists. split; [vm_compute; reflexivity|]. simpl. lia. Qed.

Lemma search_at_most_k_witness :
  exists res,
    @search Example.Z_numpy [1; 0] 1 (DStr "euclidean") (Some "pdf") Example.two_chunks
    = (Example.two_chunks, Ok res)
    /\ Z.of_nat (length res) <= 1
    /\ forall r, r ∈ res ->
         assoc_get "file_type" (deref (objects Example.two_chunks) (snd r))
         = Some (VStr "pdf").
Proof.
  destruct (@search_at_most_k Example.Z_numpy Example.two_chunks [1; 0] 1
              (DStr "euclidean") (Some "pdf")) as (res & Hres & Hlen & _ & Hfilt).
  exists res. split; [exact Hres|]. split; [apply Hlen; lia|].
  apply (Hfilt "pdf"); [reflexivity|discriminate].
Defined.

(** C6 fails as stated: the cosine similarity of the zero vector is NaN,
    and the three scores of the store below come back under "cosine" as
    0, NaN, 1, the lowest first. *)
Lemma search_sorted_by_name_counterexample :
  @search ExampleNaN.NaN_numpy [0; 1] 3 (DStr "cosine") None
    ExampleNaN.with_zero_vector
  = (ExampleNaN.with_zero_vector,
     Ok [("chunk_0", Some 0, 0%nat); ("chunk_1", None, 1%nat);
         ("chunk_2", Some 1, 2%nat)])
  /\ ~ @non_increasing ExampleNaN.NaN_numpy
         [("chunk_0", Some 0, 0%nat); ("chunk_1", None, 1%nat);
          ("chunk_2", Some 1, 2%nat)].
Proof.
  split; [vm_compute; reflexivity|].
  intros Hsorted. apply StronglySorted_cons in Hsorted as [Hall _].
  apply Forall_cons in Hall as [_ Hall]. apply Forall_cons in Hall as [Hle _].
  vm_compute in Hle. done.
Qed.

Lemma search_sorted_by_name_witness :
  exists res,
    @search Example.Z_numpy [1; 0] 2 (DStr "cosine") None Example.two_chunks
    = (Example.two_chunks, Ok res)
    /\ non_increasing res.
Proof.
  destruct (@search_sorted_by_name Example.Z_numpy Example.two_chunks [1; 0] 2
              (DStr "cosine") None)
    as (res & Hres & Hsorted).
  destruct (Hsorted (Z_comparable_scores _)) as [Hdesc _].
  exists res. split; [exact Hres|]. apply Hdesc. right. reflexivity.
Defined.



(** C2, the failing input: the unknown name "foo" is scored by the cosine
    similarity like "cosine", and does not raise, but the result comes in
    ascending order, the least similar record first, where "cosine" returns
    the most similar first. *)
Lemma search_unknown_name_ascending :
  @search Example.Z_numpy [1; 0] 2 (DStr "foo") None Example.two_chunks
  = (Example.two_chunks, Ok [("chunk_1", 0, 1%nat); ("chunk_0", 1, 0%nat)])
  /\ @search Example.Z_numpy [1; 0] 2 (DStr "cosine") None Example.two_chunks
     = (Example.two_chunks, Ok [("chunk_0", 1, 0%nat); ("chunk_1", 0, 1%nat)]).
Proof. split; vm_compute; reflexivity. Qed.

(** ** The pipeline: query *)

Section QueryTheorems.
Context `{NP : Numpy} `{EM : !EmbeddingModel} `{CM : ChatOpenAI}.

(** [search_by_text] raises exactly when the embedding call does, and
    leaves the store as it was either way. *)
Lemma search_by_text_run (w : world) (query_text : string) (k : Z) (m : measure)
    (return_as_text include_metadata : bool) (filt : option string) :
  match get_embedding query_text with
  | Raise e =>
      search_by_text query_text k m return_as_text include_metadata filt w
      = (w, Raise e)
  | Ok _ =>
      exists out,
        search_by_text query_text k m return_as_text include_metadata filt w
        = (w, Ok out)
        /\ (return_as_text = false -> exists l, out = Tuples l)
  end.
Proof.
  unfold search_by_text. run_M.
  destruct (get_embedding query_text) as [v|e]; [|done].
  rewrite search_run.
  destruct (return_as_text && negb include_metadata) eqn:Hshape.
  - eexists. split; [reflexivity|]. intros ->. done.
  - eexists. split; [reflexivity|]. eauto.
Qed.

Lemma set_vector_db_same (p : EnhancedRAGPipeline) :
  set_vector_db (vector_db p) p = p.
Proof. by destruct p. Qed.

(** The [try] block leaves the pipeline as it found it. *)
Lemma query_body_state (p : EnhancedRAGPipeline) (user_query : string) (k : Z)
    (metric : option string) (response_style : string) (include_metadata : bool)
    (filt : option string) :
  fst (query_body user_query k metric response_style include_metadata filt p) = p.
Proof.
  unfold query_body. run_M.
  set (m := DStr _).
  pose proof (search_by_text_run (vector_db p) user_query k m false true filt) as Hs.
  destruct (get_embedding user_query) as [v|e].
  - destruct Hs as (out & -> & Hout). destruct (Hout eq_refl) as [l ->].
    rewrite set_vector_db_same. simpl.
    by destruct (chat_run _ _).
  - rewrite Hs. simpl. apply set_vector_db_same.
Qed.

(** C7: [query] never raises and adds exactly one to the
    queries-processed counter, whether the call succeeds or fails, and it
    changes nothing else; when the [try] block raises [e] (the embedding
    call of the search stage, or the generation call) the result is the
    failure record carrying [str(e)]. *)
Theorem query_counts_and_catches (p : EnhancedRAGPipeline) (user_query : string)
    (k : Z) (metric : option string) (response_style : string)
    (include_metadata : bool) (filt : option string) :
  exists r,
    query user_query k metric response_style include_metadata filt p
    = (count_query p, Ok r)
    /\ queries_processed (stats (count_query p)) = queries_processed (stats p) + 1
    /\ (forall e,
          snd (query_body user_query k metric response_style include_metadata filt
                 (count_query p)) = Raise e ->
          r = QueryFailure (str_exn e))
    /\ (forall e, get_embedding user_query = Raise e -> r = QueryFailure (str_exn e))
    /\ (forall e,
          (exists v, get_embedding user_query = Ok v) ->
          (forall messages, chat_run messages 0 = Raise e) ->
          r = QueryFailure (str_exn e)).
Proof.
  pose proof (query_body_state (count_query p) user_query k metric response_style
                include_metadata filt) as Hstate.
  assert (Hquery : forall s' out,
    query_body user_query k metric response_style include_metadata filt
      (count_query p) = (s', out) ->
    query user_query k metric response_style include_metadata filt p
    = (s', Ok match out with Ok r => r | Raise e => QueryFailure (str_exn e) end)).
  { intros s' out Hbody. unfold query. run_M. rewrite Hbody. by destruct out. }
  destruct (query_body user_query k metric response_style include_metadata filt
              (count_query p)) as [s' out] eqn:Hbody.
  simpl in Hstate. subst s'.
  rewrite (Hquery _ _ eq_refl). eexists. split; [reflexivity|]. split; [done|].
  assert (Hraise : forall e, out = Raise e ->
    match out with Ok r => r | Raise e => QueryFailure (str_exn e) end
    = QueryFailure (str_exn e)) by (by intros e ->).
  split; [exact Hraise|].
  split; intros e.
  - intros Hemb. apply Hraise.
    unfold query_body in Hbody. revert Hbody. run_M.
    pose proof (search_by_text_run (vector_db p) user_query k
      (DStr match metric with
            | Some s => if decide (s = "") then distance_metric p else s
            | None => distance_metric p
            end) false true filt) as Hs.
    rewrite Hemb in Hs. rewrite Hs. simpl. congruence.
  - intros [v Hemb] Hchat. apply Hraise.
    unfold query_body in Hbody. revert Hbody. run_M.
    pose proof (search_by_text_run (vector_db p) user_query k
      (DStr match metric with
            | Some s => if decide (s = "") then distance_metric p else s
            | None => distance_metric p
            end) false true filt) as Hs.
    rewrite Hemb in Hs. destruct Hs as (res & -> & Hout).
    destruct (Hout eq_refl) as [l ->]. simpl. rewrite Hchat. congruence.
Qed.

End QueryTheorems.

Lemma query_counts_and_catches_witness :
  @query Example.Z_numpy Example.embedding_down Example.chat_ok
    "cat" 1 None "detailed" false None Example.pipeline
  = (count_query Example.pipeline, Ok (QueryFailure "connection error"))
  /\ @query Example.Z_numpy Example.embedding_ok Example.chat_down
       "cat" 1 None "detailed" false None Example.pipeline
     = (count_query Example.pipeline, Ok (QueryFailure "rate limit")).
Proof.
  split.
  - destruct (@query_counts_and_catches Example.Z_numpy Example.embedding_down
                Example.chat_ok Example.pipeline "cat" 1 None "detailed" false None)
      as (r & Hq & _ & _ & Hemb & _).
    rewrite Hq. rewrite (Hemb (Exception "connection error")); reflexivity.
  - destruct (@query_counts_and_catches Example.Z_numpy Example.embedding_ok
                Example.chat_down Example.pipeline "cat" 1 None "detailed" false None)
      as (r & Hq & _ & _ & _ & Hchat).
    rewrite Hq. rewrite (Hchat (Exception "rate limit")).
    + reflexivity.
    + eexists. reflexivity.
    + intros messages. reflexivity.
Defined.

(** ** The vector store: ingestion *)

Section AssocFacts.
Context {K V : Type} `{EqDecision K}.

Lemma assoc_get_set_eq (k : K) (v : V) (d : list (K * V)) :
  assoc_get k (assoc_set k v d) = Some v.
Proof.
  induction d as [|[k' v'] d IH]; simpl.
  - by rewrite decide_True.
  - destruct (decide (k' = k)) as [->|Hne]; simpl.
    + by rewrite decide_True.
    + by rewrite decide_False.
Qed.

Lemma assoc_get_set_ne (k k' : K) (v : V) (d : list (K * V)) :
  k <> k' -> assoc_get k' (assoc_set k v d) = assoc_get k' d.
Proof.
  intros Hne. induction d as [|[k0 v0] d IH]; simpl.
  - by rewrite decide_False.
  - destruct (decide (k0 = k)) as [->|Hne0]; simpl.
    + by rewrite !decide_False.
    + destruct (decide (k0 = k')); [done|apply IH].
Qed.
End AssocFacts.

Lemma chunk_key_inj (i j : Z) : chunk_key i = chunk_key j -> i = j.
Proof.
  unfold chunk_key. intros Heq.
  apply (inj (String.app "chunk_")) in Heq. by apply (inj pretty) in Heq.
Qed.

Section IngestFacts.
Context `{NP : Numpy}.

(** One iteration with a metadata entry at position [i]: the record is
    stored under the next key, its dictionary carries [chunk_index = i],
    and no dictionary other than the record's own is written. *)
Lemma abuild_step_spec (w : world) (mds : list md_entry) (i : nat)
    (text : string) (emb : vec) (entry : md_entry) :
  mds !! i = Some entry ->
  (forall l, entry = MdDict l -> (l < length (objects w))%nat) ->
  exists w' l,
    abuild_step (Some mds) (i, (text, emb)) w = (w', Ok tt)
    /\ chunk_counter (db w') = chunk_counter (db w) + 1
    /\ vectors (db w')
       = assoc_set (chunk_key (chunk_counter (db w)))
           {| vector := emb; metadata := l |} (vectors (db w))
    /\ text_to_key (db w')
       = assoc_set text (chunk_key (chunk_counter (db w))) (text_to_key (db w))
    /\ (length (objects w) <= length (objects w'))%nat
    /\ (l < length (objects w'))%nat
    /\ (exists d, objects w' !! l = Some d
                  /\ assoc_get "chunk_index" d = Some (VInt (Z.of_nat i)))
    /\ (forall l', (l' < length (objects w))%nat -> l' <> l ->
                   objects w' !! l' = objects w !! l')
    /\ match entry with
       | MdDict l0 => l = l0
       | MdObject _ => (length (objects w) <= l)%nat
       end.
Proof.
  intros Hentry Hvalid.
  destruct mds as [|md0 mds0]; [done|].
  unfold abuild_step. run_M. unfold modify_db, alloc, insert, dict_setitem. run_M.
  rewrite Hentry. destruct entry as [o|l0]; simpl.
  - unfold modify_db. run_M. eexists _, _. split; [reflexivity|].
    cbn [objects db vectors chunk_counter text_to_key].
    rewrite !length_insert, !length_app. cbn [length].
    split; [done|]. split; [done|]. split; [done|]. split; [lia|]. split; [lia|].
    split; [|split; [|lia]].
    + eexists. split.
      * apply list_lookup_insert_eq. rewrite !length_app. simpl. lia.
      * apply assoc_get_set_eq.
    + intros l' Hl' Hne. rewrite list_lookup_insert_ne by done.
      rewrite <- app_assoc. by rewrite lookup_app_l.
  - unfold modify_db. run_M. eexists _, _. split; [reflexivity|].
    cbn [objects db vectors chunk_counter text_to_key].
    specialize (Hvalid l0 eq_refl).
    rewrite !length_insert, !length_app. cbn [length].
    split; [done|]. split; [done|]. split; [done|]. split; [lia|]. split; [lia|].
    split; [|split; [|done]].
    + eexists. split.
      * apply list_lookup_insert_eq. rewrite !length_app. simpl. lia.
      * apply assoc_get_set_eq.
    + intros l' Hl' Hne. rewrite list_lookup_insert_ne by done.
      by rewrite lookup_app_l.
Qed.

(** The loop of [abuild_from_list] over the pairs that are left, from
    position [i0]: what it writes and what it leaves alone. *)
Lemma abuild_loop_spec (mds : list md_entry) (tes : list (string * vec)) :
  forall (i0 : nat) (w : world),
  (forall j, (j < length tes)%nat -> exists entry, mds !! (i0 + j)%nat = Some entry) ->
  (forall j l, mds !! j = Some (MdDict l) -> (l < length (objects w))%nat) ->
  (forall j1 j2 l, mds !! j1 = Some (MdDict l) -> mds !! j2 = Some (MdDict l) ->
                   j1 = j2) ->
  counter_fresh (db w) ->
  exists w',
    for_each (enumerate_from i0 tes) (fun item _ => abuild_step (Some mds) item) tt w
    = (w', Ok tt)
    /\ chunk_counter (db w') = chunk_counter (db w) + Z.of_nat (length tes)
    /\ (forall key,
          (forall j, (j < length tes)%nat ->
                     key <> chunk_key (chunk_counter (db w) + Z.of_nat j)) ->
          assoc_get key (vectors (db w')) = assoc_get key (vectors (db w)))
    /\ (length (objects w) <= length (objects w'))%nat
    /\ (forall l', (l' < length (objects w))%nat ->
          (forall j, (i0 <= j)%nat -> mds !! j <> Some (MdDict l')) ->
          objects w' !! l' = objects w !! l')
    /\ (forall j te, tes !! j = Some te ->
          exists v d,
            assoc_get (chunk_key (chunk_counter (db w) + Z.of_nat j)) (vectors (db w'))
            = Some v
            /\ vector v = snd te
            /\ objects w' !! metadata v = Some d
            /\ assoc_get "chunk_index" d = Some (VInt (Z.of_nat (i0 + j))))
    /\ counter_fresh (db w').
Proof.
  induction tes as [|[text emb] tes IH]; intros i0 w Hmd Hvalid Hnodup Hfresh.
  - exists w. simpl. rewrite Z.add_0_r. repeat split; try done.
  - destruct (Hmd 0%nat) as [entry Hentry]; [simpl; lia|].
    rewrite Nat.add_0_r in Hentry.
    destruct (abuild_step_spec w mds i0 text emb entry Hentry)
      as (w1 & l & Hstep & Hc1 & Hv1 & _ & Hlen1 & Hl1 & (d & Hd & Hidx) & Hframe1 & Hloc).
    { intros l0 ->. by eapply Hvalid. }
    destruct (IH (S i0) w1) as (w' & Hloop & Hc & Hfv & Hlen & Hfh & Hpost & Hfresh').
    { intros j Hj. destruct (Hmd (S j)) as [e He]; [simpl; lia|].
      exists e. by replace (S i0 + j)%nat with (i0 + S j)%nat by lia. }
    { intros j l0 Hj. specialize (Hvalid j l0 Hj). lia. }
    { done. }
    { intros j Hj. rewrite Hv1. rewrite assoc_get_set_ne.
      - apply Hfresh. lia.
      - intros Heq%chunk_key_inj. lia. }
    assert (Hl_later : forall j, (S i0 <= j)%nat -> mds !! j <> Some (MdDict l)).
    { intros j Hj Hjl. destruct entry as [o|l0].
      - specialize (Hvalid j l Hjl). lia.
      - subst l0. specialize (Hnodup _ _ _ Hentry Hjl). lia. }
    exists w'. cbn [for_each enumerate_from length]. unfold bind at 1. rewrite Hstep. split; [exact Hloop|].
    split; [rewrite Hc, Hc1; lia|].
    split; [|split; [lia|split; [|split]]].
    + intros key Hkey. rewrite Hfv.
      * rewrite Hv1. apply assoc_get_set_ne.
        specialize (Hkey 0%nat ltac:(lia)). rewrite Z.add_0_r in Hkey. congruence.
      * intros j Hj. specialize (Hkey (S j) ltac:(lia)).
        rewrite Hc1. by replace (chunk_counter (db w) + 1 + Z.of_nat j)
          with (chunk_counter (db w) + Z.of_nat (S j)) by lia.
    + intros l' Hl' Hnot. rewrite Hfh.
      * apply Hframe1; [done|]. intros ->.
        destruct entry as [o|l0]; [lia|]. subst l0. by apply (Hnot i0).
      * lia.
      * intros j Hj. apply Hnot. lia.
    + intros [|j] te Hte; simpl in Hte.
      * injection Hte as <-. exists {| vector := emb; metadata := l |}, d.
        rewrite Z.add_0_r, Nat.add_0_r. split; [|split; [done|split; [|done]]].
        -- rewrite Hfv.
           ++ rewrite Hv1. apply assoc_get_set_eq.
           ++ intros j Hj Heq%chunk_key_inj. lia.
        -- simpl. rewrite Hfh; [done|done|done].
      * destruct (Hpost j te Hte) as (v & d' & Hget & Hvec & Hobj & Hci).
        exists v, d'. rewrite Hc1 in Hget.
        replace (chunk_counter (db w) + Z.of_nat (S j))
          with (chunk_counter (db w) + 1 + Z.of_nat j) by lia.
        replace (i0 + S j)%nat with (S i0 + j)%nat by lia. done.
    + done.
Qed.

End IngestFacts.

(** *** What every iteration does to the database, with or without
    metadata *)

Section IngestDbFacts.
Context `{NP : Numpy}.

Lemma abuild_step_db (metadata_list : option (list md_entry)) (i : nat)
    (text : string) (emb : vec) (w : world) :
  exists w' l,
    abuild_step metadata_list (i, (text, emb)) w = (w', Ok tt)
    /\ chunk_counter (db w') = chunk_counter (db w) + 1
    /\ vectors (db w')
       = assoc_set (chunk_key (chunk_counter (db w)))
           {| vector := emb; metadata := l |} (vectors (db w))
    /\ text_to_key (db w')
       = assoc_set text (chunk_key (chunk_counter (db w))) (text_to_key (db w)).
Proof.
  unfold abuild_step. run_M. unfold modify_db, alloc, insert, dict_setitem. run_M.
  destruct metadata_list as [[|md0 mds0]|]; simpl;
    try (unfold modify_db; run_M; by eexists _, _).
  destruct ((md0 :: mds0) !! i) as [[o|l0]|]; simpl;
    unfold modify_db; run_M; by eexists _, _.
Qed.

Lemma assoc_set_length_fresh {K V : Type} `{EqDecision K} (k : K) (v : V)
    (d : list (K * V)) :
  assoc_get k d = None -> length (assoc_set k v d) = S (length d).
Proof.
  induction d as [|[k' v'] d IH]; simpl; [done|].
  destruct (decide (k' = k)); [done|]. intros Hnone. simpl. by rewrite IH.
Qed.

Lemma assoc_set_length_present {K V : Type} `{EqDecision K} (k : K) (v v0 : V)
    (d : list (K * V)) :
  assoc_get k d = Some v0 -> length (assoc_set k v d) = length d.
Proof.
  induction d as [|[k' v'] d IH]; simpl; [done|].
  destruct (decide (k' = k)); [done|]. intros Hsome. simpl. by rewrite IH.
Qed.

Lemma assoc_set_keys_NoDup {K V : Type} `{EqDecision K} (k : K) (v : V)
    (d : list (K * V)) :
  NoDup d.*1 -> NoDup (assoc_set k v d).*1.
Proof.
  induction d as [|[k' v'] d IH]; simpl; intros Hnd.
  - apply NoDup_singleton.
  - apply NoDup_cons in Hnd as [Hnotin Hnd].
    destruct (decide (k' = k)) as [->|Hne]; simpl.
    + by apply NoDup_cons.
    + apply NoDup_cons. split; [|by apply IH].
      intros Hin. apply Hnotin. clear -Hin Hne.
      induction d as [|[k0 v0] d IHd]; simpl in *.
      * apply list_elem_of_singleton in Hin. congruence.
      * destruct (decide (k0 = k)) as [->|Hne0]; simpl in *.
        -- apply elem_of_cons in Hin as [->|Hin]; [done|]. by right.
        -- apply elem_of_cons in Hin as [->|Hin]; [by left|]. right. by apply IHd.
Qed.

(** The whole loop, for any metadata list: it never raises, takes one key
    and one counter value per pair, and the text-to-key mapping ends with
    each text on the key of its last occurrence. *)
Lemma abuild_loop_db (metadata_list : option (list md_entry))
    (tes : list (string * vec)) :
  forall (i0 : nat) (w : world),
  counter_fresh (db w) ->
  exists w',
    for_each (enumerate_from i0 tes)
      (fun item _ => abuild_step metadata_list item) tt w = (w', Ok tt)
    /\ chunk_counter (db w') = chunk_counter (db w) + Z.of_nat (length tes)
    /\ length (vectors (db w')) = (length (vectors (db w)) + length tes)%nat
    /\ counter_fresh (db w')
    /\ (NoDup (text_to_key (db w)).*1 -> NoDup (text_to_key (db w')).*1)
    /\ (forall text, (forall j te, tes !! j = Some te -> fst te <> text) ->
          assoc_get text (text_to_key (db w'))
          = assoc_get text (text_to_key (db w)))
    /\ (forall j te, tes !! j = Some te ->
          (forall j' te', (j < j')%nat -> tes !! j' = Some te' -> fst te' <> fst te) ->
          assoc_get (fst te) (text_to_key (db w'))
          = Some (chunk_key (chunk_counter (db w) + Z.of_nat j))).
Proof.
  induction tes as [|[text emb] tes IH]; intros i0 w Hfresh.
  - exists w. simpl. rewrite Z.add_0_r, Nat.add_0_r. repeat split; try done.
  - destruct (abuild_step_db metadata_list i0 text emb w)
      as (w1 & l & Hstep & Hc1 & Hv1 & Ht1).
    assert (Hfresh1 : counter_fresh (db w1)).
    { intros j Hj. rewrite Hv1. rewrite assoc_get_set_ne.
      - apply Hfresh. lia.
      - intros Heq%chunk_key_inj. lia. }
    destruct (IH (S i0) w1 Hfresh1)
      as (w' & Hloop & Hc & Hlen & Hfresh' & Hnd & Hframe & Hlast).
    exists w'. cbn [for_each enumerate_from length]. unfold bind at 1.
    rewrite Hstep. split; [exact Hloop|].
    split; [rewrite Hc, Hc1; lia|].
    split; [|split; [done|split; [|split]]].
    + rewrite Hlen, Hv1. rewrite assoc_set_length_fresh; [lia|].
      apply Hfresh. lia.
    + intros Hnd0. apply Hnd. rewrite Ht1. by apply assoc_set_keys_NoDup.
    + intros t Ht. rewrite Hframe.
      * rewrite Ht1. apply assoc_get_set_ne.
        specialize (Ht 0%nat (text, emb) eq_refl). done.
      * intros j te Hte. apply (Ht (S j) te Hte).
    + intros [|j] te Hte Hlater; simpl in Hte.
      * injection Hte as <-. simpl. rewrite Hframe.
        -- rewrite Ht1, Z.add_0_r. apply assoc_get_set_eq.
        -- intros j te Hte. apply (Hlater (S j) te); [lia|done].
      * rewrite (Hlast j te Hte).
        -- rewrite Hc1. do 2 f_equal. lia.
        -- intros j' te' Hj' Hte'. apply (Hlater (S j') te'); [lia|done].
Qed.

Lemma py_zip_lookup {A B} (xs : list A) (ys : list B) (j : nat) (x : A) (y : B) :
  py_zip xs ys !! j = Some (x, y) <-> xs !! j = Some x /\ ys !! j = Some y.
Proof.
  revert ys j. induction xs as [|x0 xs IH]; intros [|y0 ys] [|j]; simpl;
    try (split; [done|by intros [? ?]]).
  - split; [by intros [= -> ->]|by intros [[= ->] [= ->]]].
  - apply IH.
Qed.

Lemma py_zip_length {A B} (xs : list A) (ys : list B) :
  length ys = length xs -> length (py_zip xs ys) = length xs.
Proof.
  revert ys. induction xs as [|x xs IH]; intros [|y ys]; simpl; try done.
  intros [= Hlen]. by rewrite IH.
Qed.

End IngestDbFacts.

(** *** abuild_from_list *)

Section IngestTheorems.
Context `{NP : Numpy} `{EM : !EmbeddingModel}.

Lemma abuild_from_list_unfold (texts : list string) (embs : list vec)
    (metadata_list : option (list md_entry)) (w : world) :
  async_get_embeddings texts = Ok embs ->
  abuild_from_list texts metadata_list w
  = for_each (enumerate_from 0 (py_zip texts embs))
      (fun item _ => abuild_step metadata_list item) tt w.
Proof.
  intros Hemb. unfold abuild_from_list, mbind, M_bind, bind, call.
  by rewrite Hemb.
Qed.

(** Ingestion with a parallel metadata list whose dictionaries are distinct
    objects (entries with a [to_dict] method are always fine), on a store
    whose keys the counter has not reached: N records are added under the
    N new keys [chunk_c .. chunk_(c+N-1)], none of which was in use; the
    i-th record holds the i-th embedding and a dictionary whose
    [chunk_index] is i, counted from 0 in this call; the records already
    stored are kept; and the counter ends N higher, above every key. *)
Theorem abuild_from_list_keys_and_indices (w : world) (texts : list string)
    (embs : list vec) (mds : list md_entry) :
  async_get_embeddings texts = Ok embs ->
  length embs = length texts ->
  length mds = length texts ->
  counter_fresh (db w) ->
  (forall j l, mds !! j = Some (MdDict l) -> (l < length (objects w))%nat) ->
  (forall j1 j2 l, mds !! j1 = Some (MdDict l) -> mds !! j2 = Some (MdDict l) ->
                   j1 = j2) ->
  exists w',
    abuild_from_list texts (Some mds) w = (w', Ok tt)
    /\ chunk_counter (db w') = chunk_counter (db w) + Z.of_nat (length texts)
    /\ length (vectors (db w')) = (length (vectors (db w)) + length texts)%nat
    /\ (forall (j : nat) emb, embs !! j = Some emb ->
          assoc_get (chunk_key (chunk_counter (db w) + Z.of_nat j)) (vectors (db w))
          = None
          /\ exists v d,
               assoc_get (chunk_key (chunk_counter (db w) + Z.of_nat j))
                 (vectors (db w')) = Some v
               /\ vector v = emb
               /\ objects w' !! metadata v = Some d
               /\ assoc_get "chunk_index" d = Some (VInt (Z.of_nat j)))
    /\ (forall i j : Z, chunk_key i = chunk_key j -> i = j)
    /\ (forall key v, assoc_get key (vectors (db w)) = Some v ->
          assoc_get key (vectors (db w')) = Some v)
    /\ counter_fresh (db w').
Proof.
  intros Hemb Hlen_e Hlen_m Hfresh Hvalid Hnodup.
  rewrite (abuild_from_list_unfold _ _ _ _ Hemb).
  assert (Hlen_z : length (py_zip texts embs) = length texts)
    by (by apply py_zip_length).
  destruct (abuild_loop_spec mds (py_zip texts embs) 0%nat w)
    as (w' & Hloop & Hc & Hfv & _ & _ & Hpost & Hfresh'); try done.
  { intros j Hj. apply lookup_lt_is_Some_2. simpl. lia. }
  destruct (abuild_loop_db (Some mds) (py_zip texts embs) 0%nat w Hfresh)
    as (w'' & Hloop' & _ & Hcount & _).
  rewrite Hloop in Hloop'. injection Hloop' as <-.
  exists w'. split; [done|]. rewrite Hlen_z in Hc, Hcount.
  split; [done|]. split; [done|]. split; [|split; [|split; [|done]]].
  - intros j emb Hj.
    assert (Hjlt : (j < length texts)%nat)
      by (rewrite <- Hlen_e; by eapply lookup_lt_Some).
    split; [apply Hfresh; lia|].
    destruct (lookup_lt_is_Some_2 texts j Hjlt) as [text Htext].
    destruct (Hpost j (text, emb)) as (v & d & Hget & Hvec & Hobj & Hci).
    { apply py_zip_lookup. done. }
    exists v, d. done.
  - apply chunk_key_inj.
  - intros key v Hkey. rewrite Hfv; [done|].
    intros j Hj ->. rewrite Hfresh in Hkey; [done|lia].
Qed.

(** When the embedding call raises, [abuild_from_list] raises the same
    exception and the store is as it was: the call comes before the first
    write. *)
Theorem abuild_from_list_embedding_failure (w : world) (texts : list string)
    (metadata_list : option (list md_entry)) (e : exn) :
  async_get_embeddings texts = Raise e ->
  abuild_from_list texts metadata_list w = (w, Raise e).
Proof.
  intros Hemb. unfold abuild_from_list, mbind, M_bind, bind, call.
  by rewrite Hemb.
Qed.

(** The reverse mapping is last-write-wins: after ingestion every ingested
    text is mapped to the key of its last occurrence in the call, and the
    mapping of every other text is unchanged. *)
Theorem abuild_from_list_text_to_key (w : world) (texts : list string)
    (embs : list vec) (metadata_list : option (list md_entry)) :
  async_get_embeddings texts = Ok embs ->
  length embs = length texts ->
  counter_fresh (db w) ->
  exists w',
    abuild_from_list texts metadata_list w = (w', Ok tt)
    /\ (forall (j : nat) text, texts !! j = Some text ->
          (forall j', (j < j')%nat -> texts !! j' <> Some text) ->
          assoc_get text (text_to_key (db w'))
          = Some (chunk_key (chunk_counter (db w) + Z.of_nat j)))
    /\ (forall text, text ∉ texts ->
          assoc_get text (text_to_key (db w'))
          = assoc_get text (text_to_key (db w))).
Proof.
  intros Hemb Hlen Hfresh.
  rewrite (abuild_from_list_unfold _ _ _ _ Hemb).
  destruct (abuild_loop_db metadata_list (py_zip texts embs) 0%nat w Hfresh)
    as (w' & Hloop & _ & _ & _ & _ & Hframe & Hlast).
  exists w'. split; [done|]. split.
  - intros j text Htext Hlater.
    assert (Hjlt : (j < length embs)%nat)
      by (rewrite Hlen; by eapply lookup_lt_Some).
    destruct (lookup_lt_is_Some_2 embs j Hjlt) as [emb Hemb_j].
    apply (Hlast j (text, emb)).
    + by apply py_zip_lookup.
    + intros j' [text' emb'] Hj' [Ht' _]%py_zip_lookup. simpl.
      intros ->. by apply (Hlater j').
  - intros text Hnotin. apply Hframe.
    intros j [text' emb'] [Ht' _]%py_zip_lookup. simpl. intros ->.
    apply Hnotin. by eapply list_elem_of_lookup_2.
Qed.

End IngestTheorems.

Lemma abuild_from_list_keys_and_indices_witness :
  exists w',
    @abuild_from_list Example.Z_numpy Example.embedding_ok ["cat"; "dog"]
      (Some [MdDict 0%nat; MdObject Sample.notes]) Example.empty_store
    = (w', Ok tt)
    /\ chunk_counter (db w') = 2
    /\ length (vectors (db w')) = 2%nat.
Proof.
  destruct (@abuild_from_list_keys_and_indices Example.Z_numpy Example.embedding_ok
              Example.empty_store ["cat"; "dog"] [[1; 0]; [0; 1]]
              [MdDict 0%nat; MdObject Sample.notes])
    as (w' & Hrun & Hc & Hn & _).
  - reflexivity.
  - reflexivity.
  - reflexivity.
  - intros j Hj. reflexivity.
  - intros [|[|j]] l Hl; simpl in Hl; [|done|done].
    injection Hl as <-. simpl. lia.
  - intros [|[|j1]] [|[|j2]] l H1 H2; simpl in H1, H2; try done.
  - exists w'. split; [exact Hrun|]. split; [exact Hc|exact Hn].
Defined.

Lemma abuild_from_list_embedding_failure_witness :
  @abuild_from_list Example.Z_numpy Example.embedding_down ["cat"] None
    Example.two_chunks
  = (Example.two_chunks, Raise (Exception "connection error")).
Proof.
  apply (@abuild_from_list_embedding_failure Example.Z_numpy Example.embedding_down).
  reflexivity.
Defined.

Lemma abuild_from_list_text_to_key_witness :
  exists w',
    @abuild_from_list Example.Z_numpy Example.embedding_ok ["cat"; "dog"; "cat"] None
      Example.empty_store = (w', Ok tt)
    /\ assoc_get "cat" (text_to_key (db w')) = Some "chunk_2"
    /\ assoc_get "dog" (text_to_key (db w')) = Some "chunk_1".
Proof.
  destruct (@abuild_from_list_text_to_key Example.Z_numpy Example.embedding_ok
              Example.empty_store ["cat"; "dog"; "cat"] [[1; 0]; [0; 1]; [1; 0]] None)
    as (w' & Hrun & Hlast & _).
  - reflexivity.
  - reflexivity.
  - intros j Hj. reflexivity.
  - exists w'. split; [exact Hrun|]. split.
    + apply (Hlast 2%nat "cat"); [reflexivity|].
      intros [|[|[|j']]] Hj' Hl; simpl in Hl; try lia; done.
    + apply (Hlast 1%nat "dog"); [reflexivity|].
      intros [|[|[|j']]] Hj' Hl; simpl in Hl; try lia; done.
Defined.

(** *** Two calls in a row *)

Section IngestAcrossCallsFacts.
Context `{NP : Numpy}.

(** Which dictionary a new record holds: the one passed by reference, or a
    dictionary allocated in the call for an entry with [to_dict]. *)
Lemma abuild_loop_metadata (mds : list md_entry) (tes : list (string * vec)) :
  forall (i0 : nat) (w : world),
  (forall j, (j < length tes)%nat -> exists entry, mds !! (i0 + j)%nat = Some entry) ->
  (forall j l, mds !! j = Some (MdDict l) -> (l < length (objects w))%nat) ->
  (forall j1 j2 l, mds !! j1 = Some (MdDict l) -> mds !! j2 = Some (MdDict l) ->
                   j1 = j2) ->
  counter_fresh (db w) ->
  forall w',
    for_each (enumerate_from i0 tes) (fun item _ => abuild_step (Some mds) item) tt w
    = (w', Ok tt) ->
    forall j te, tes !! j = Some te ->
      exists v,
        assoc_get (chunk_key (chunk_counter (db w) + Z.of_nat j)) (vectors (db w'))
        = Some v
        /\ match mds !! (i0 + j)%nat with
           | Some (MdDict l) => metadata v = l
           | _ => (length (objects w) <= metadata v)%nat
           end.
Proof.
  induction tes as [|[text emb] tes IH]; intros i0 w Hmd Hvalid Hnodup Hfresh w' Hrun j te Hte;
    [done|].
  destruct (Hmd 0%nat) as [entry Hentry]; [simpl; lia|].
  rewrite Nat.add_0_r in Hentry.
  destruct (abuild_step_spec w mds i0 text emb entry Hentry)
    as (w1 & l & Hstep & Hc1 & Hv1 & _ & Hlen1 & Hl1 & _ & _ & Hloc).
  { intros l0 ->. by eapply Hvalid. }
  assert (Hmd1 : forall j, (j < length tes)%nat ->
                   exists entry, mds !! (S i0 + j)%nat = Some entry).
  { intros j' Hj'. destruct (Hmd (S j')) as [e He]; [simpl; lia|].
    exists e. by replace (S i0 + j')%nat with (i0 + S j')%nat by lia. }
  assert (Hvalid1 : forall j l, mds !! j = Some (MdDict l) ->
                      (l < length (objects w1))%nat).
  { intros j' l0 Hj'. specialize (Hvalid j' l0 Hj'). lia. }
  assert (Hfresh1 : counter_fresh (db w1)).
  { intros j' Hj'. rewrite Hv1. rewrite assoc_get_set_ne.
    - apply Hfresh. lia.
    - intros Heq%chunk_key_inj. lia. }
  cbn [for_each enumerate_from] in Hrun. unfold bind at 1 in Hrun. rewrite Hstep in Hrun.
  destruct j as [|j]; simpl in Hte.
  - injection Hte as <-.
    destruct (abuild_loop_spec mds tes (S i0) w1 Hmd1 Hvalid1 Hnodup Hfresh1)
      as (w'' & Hloop & _ & Hfv & _).
    rewrite Hloop in Hrun. injection Hrun as <-.
    exists {| vector := emb; metadata := l |}. rewrite Z.add_0_r, Nat.add_0_r. split.
    + rewrite Hfv.
      * rewrite Hv1. apply assoc_get_set_eq.
      * intros j Hj Heq%chunk_key_inj. lia.
    + rewrite Hentry. simpl. by destruct entry.
  - destruct (IH (S i0) w1 Hmd1 Hvalid1 Hnodup Hfresh1 w' Hrun j te Hte) as (v & Hget & Hmeta).
    exists v. split.
    + rewrite <- Hget, Hc1. do 2 f_equal. lia.
    + replace (i0 + S j)%nat with (S i0 + j)%nat by lia.
      destruct (mds !! (S i0 + j)%nat) as [[o|l0]|]; try done; lia.
Qed.

End IngestAcrossCallsFacts.

Section IngestAcrossCallsTheorems.
Context `{NP : Numpy} `{EM : !EmbeddingModel}.

(** C4 as stated fails; amended: on a store in which no key [chunk_j] at
    or above the counter is in use, two calls in a row, each with one
    embedding and one metadata entry per text, the dictionaries among the
    entries being objects that exist before the first call and pairwise
    distinct over both calls (entries with [to_dict] are copied, and always
    fine): the calls take the N1 + N2 keys that follow the counter, none
    of which was in use and no two of which are equal; after both calls the
    i-th record of the first call holds the i-th embedding and a
    dictionary with [chunk_index] i, and the j-th record of the second
    call a dictionary with [chunk_index] j, counted again from 0; the
    records stored before are kept, and the counter ends above every key,
    so that a further call finds the store as the first one did. *)
Theorem abuild_from_list_across_calls (w : world) (texts1 texts2 : list string)
    (embs1 embs2 : list vec) (mds1 mds2 : list md_entry) :
  async_get_embeddings texts1 = Ok embs1 ->
  length embs1 = length texts1 ->
  length mds1 = length texts1 ->
  async_get_embeddings texts2 = Ok embs2 ->
  length embs2 = length texts2 ->
  length mds2 = length texts2 ->
  counter_fresh (db w) ->
  (forall j l, (mds1 ++ mds2) !! j = Some (MdDict l) -> (l < length (objects w))%nat) ->
  (forall j1 j2 l, (mds1 ++ mds2) !! j1 = Some (MdDict l) ->
                   (mds1 ++ mds2) !! j2 = Some (MdDict l) -> j1 = j2) ->
  exists w1 w2,
    abuild_from_list texts1 (Some mds1) w = (w1, Ok tt)
    /\ abuild_from_list texts2 (Some mds2) w1 = (w2, Ok tt)
    /\ chunk_counter (db w2)
       = chunk_counter (db w) + Z.of_nat (length texts1) + Z.of_nat (length texts2)
    /\ length (vectors (db w2))
       = (length (vectors (db w)) + length texts1 + length texts2)%nat
    /\ (forall (i : nat) emb, embs1 !! i = Some emb ->
          assoc_get (chunk_key (chunk_counter (db w) + Z.of_nat i)) (vectors (db w))
          = None
          /\ exists v d,
               assoc_get (chunk_key (chunk_counter (db w) + Z.of_nat i))
                 (vectors (db w2)) = Some v
               /\ vector v = emb
               /\ objects w2 !! metadata v = Some d
               /\ assoc_get "chunk_index" d = Some (VInt (Z.of_nat i)))
    /\ (forall (j : nat) emb, embs2 !! j = Some emb ->
          assoc_get (chunk_key (chunk_counter (db w) + Z.of_nat (length texts1)
                                + Z.of_nat j)) (vectors (db w1))
          = None
          /\ exists v d,
               assoc_get (chunk_key (chunk_counter (db w) + Z.of_nat (length texts1)
                                     + Z.of_nat j)) (vectors (db w2))
               = Some v
               /\ vector v = emb
               /\ objects w2 !! metadata v = Some d
               /\ assoc_get "chunk_index" d = Some (VInt (Z.of_nat j)))
    /\ (forall i j : Z, chunk_key i = chunk_key j -> i = j)
    /\ (forall key v, assoc_get key (vectors (db w)) = Some v ->
          assoc_get key (vectors (db w2)) = Some v)
    /\ counter_fresh (db w2).
Proof.
  intros Hemb1 Hle1 Hlm1 Hemb2 Hle2 Hlm2 Hfresh Hvalid Hnodup.
  assert (Hvalid1 : forall j l, mds1 !! j = Some (MdDict l) ->
                      (l < length (objects w))%nat).
  { intros j l Hj. apply (Hvalid j). by apply lookup_app_l_Some. }
  assert (Hnodup1 : forall j1 j2 l, mds1 !! j1 = Some (MdDict l) ->
                      mds1 !! j2 = Some (MdDict l) -> j1 = j2).
  { intros j1 j2 l H1 H2. apply (Hnodup j1 j2 l); by apply lookup_app_l_Some. }
  assert (Hin2 : forall j e, mds2 !! j = Some e ->
                   (mds1 ++ mds2) !! (length mds1 + j)%nat = Some e).
  { intros j e Hj. rewrite lookup_app_r by lia.
    by replace (length mds1 + j - length mds1)%nat with j by lia. }
  assert (Hz1 : length (py_zip texts1 embs1) = length texts1)
    by (by apply py_zip_length).
  assert (Hz2 : length (py_zip texts2 embs2) = length texts2)
    by (by apply py_zip_length).
  assert (Hmd1 : forall j, (j < length (py_zip texts1 embs1))%nat ->
                   exists entry, mds1 !! (0 + j)%nat = Some entry).
  { intros j Hj. apply lookup_lt_is_Some_2. simpl. lia. }
  assert (Hmd2 : forall j, (j < length (py_zip texts2 embs2))%nat ->
                   exists entry, mds2 !! (0 + j)%nat = Some entry).
  { intros j Hj. apply lookup_lt_is_Some_2. simpl. lia. }
  destruct (abuild_loop_spec mds1 (py_zip texts1 embs1) 0%nat w Hmd1 Hvalid1 Hnodup1 Hfresh)
    as (w1 & Hloop1 & Hc1 & Hfv1 & Hlen1 & _ & Hpost1 & Hfresh1).
  destruct (abuild_loop_db (Some mds1) (py_zip texts1 embs1) 0%nat w Hfresh)
    as (w1' & Hloop1' & _ & Hcount1 & _).
  rewrite Hloop1 in Hloop1'. injection Hloop1' as <-.
  pose proof (abuild_loop_metadata mds1 (py_zip texts1 embs1) 0%nat w
                Hmd1 Hvalid1 Hnodup1 Hfresh w1 Hloop1) as Hmeta1.
  assert (Hvalid2 : forall j l, mds2 !! j = Some (MdDict l) ->
                      (l < length (objects w1))%nat).
  { intros j l Hj. specialize (Hvalid _ _ (Hin2 _ _ Hj)). lia. }
  assert (Hnodup2 : forall j1 j2 l, mds2 !! j1 = Some (MdDict l) ->
                      mds2 !! j2 = Some (MdDict l) -> j1 = j2).
  { intros j1 j2 l H1 H2.
    pose proof (Hnodup _ _ _ (Hin2 _ _ H1) (Hin2 _ _ H2)). lia. }
  destruct (abuild_loop_spec mds2 (py_zip texts2 embs2) 0%nat w1 Hmd2 Hvalid2 Hnodup2 Hfresh1)
    as (w2 & Hloop2 & Hc2 & Hfv2 & _ & Hfh2 & Hpost2 & Hfresh2).
  destruct (abuild_loop_db (Some mds2) (py_zip texts2 embs2) 0%nat w1 Hfresh1)
    as (w2' & Hloop2' & _ & Hcount2 & _).
  rewrite Hloop2 in Hloop2'. injection Hloop2' as <-.
  rewrite Hz1 in Hc1, Hcount1. rewrite Hz2 in Hc2, Hcount2, Hfv2.
  exists w1, w2.
  rewrite (abuild_from_list_unfold _ _ _ _ Hemb1), (abuild_from_list_unfold _ _ _ _ Hemb2).
  split; [done|]. split; [done|]. split; [lia|]. split; [lia|].
  split; [|split; [|split; [|split; [|done]]]].
  - intros i emb Hi.
    assert (Hilt : (i < length texts1)%nat)
      by (rewrite <- Hle1; by eapply lookup_lt_Some).
    split; [apply Hfresh; lia|].
    destruct (lookup_lt_is_Some_2 texts1 i Hilt) as [text Htext].
    assert (Hzip : py_zip texts1 embs1 !! i = Some (text, emb))
      by (by apply py_zip_lookup).
    destruct (Hpost1 i (text, emb) Hzip) as (v & d & Hget & Hvec & Hobj & Hci).
    destruct (Hmeta1 i (text, emb) Hzip) as (v' & Hget' & Hm).
    rewrite Hget in Hget'. injection Hget' as <-.
    exists v, d. split; [|split; [done|split; [|done]]].
    + rewrite Hfv2; [done|]. intros j Hj Heq%chunk_key_inj. lia.
    + rewrite Hfh2; [done|by eapply lookup_lt_Some|].
      intros j _ Hj. cbn [Nat.add] in Hm.
      pose proof (Hvalid _ _ (Hin2 _ _ Hj)) as Hlt.
      destruct (mds1 !! i) as [[o|l]|] eqn:Hmi; [lia| |lia].
      subst l. apply (lookup_app_l_Some _ mds2) in Hmi.
      pose proof (Hnodup _ _ _ Hmi (Hin2 _ _ Hj)). lia.
  - intros j emb Hj.
    assert (Hjlt : (j < length texts2)%nat)
      by (rewrite <- Hle2; by eapply lookup_lt_Some).
    rewrite <- Hc1. split; [apply Hfresh1; lia|].
    destruct (lookup_lt_is_Some_2 texts2 j Hjlt) as [text Htext].
    destruct (Hpost2 j (text, emb)) as (v & d & Hget & Hvec & Hobj & Hci).
    { by apply py_zip_lookup. }
    exists v, d. done.
  - apply chunk_key_inj.
  - intros key v Hkey. rewrite Hfv2.
    + rewrite Hfv1; [done|]. intros j Hj ->. rewrite Hfresh in Hkey; [done|lia].
    + intros j Hj ->. rewrite Hc1 in Hkey. rewrite Hfresh in Hkey; [done|lia].
Qed.

End IngestAcrossCallsTheorems.

(** C4 fails as stated. One dictionary passed for both texts is the
    metadata of both records, and its [chunk_index] ends as 1: the record
    under [chunk_0] does not have the index 0. And on a store that holds a
    record inserted under the key "chunk_0", the first key [abuild_from_list]
    assigns is that key: the record is overwritten and the store still has
    one record. *)
Lemma abuild_from_list_across_calls_counterexample :
  (exists w' v0 d,
     @abuild_from_list Example.Z_numpy Example.embedding_ok ["cat"; "dog"]
       (Some [MdDict 0%nat; MdDict 0%nat]) Example.empty_store
     = (w', Ok tt)
     /\ assoc_get "chunk_0" (vectors (db w')) = Some v0
     /\ objects w' !! metadata v0 = Some d
     /\ assoc_get "chunk_index" d = Some (VInt 1))
  /\ (exists w0 w',
        @insert Example.Z_numpy "chunk_0" [0; 1] None Example.empty_store = (w0, Ok tt)
        /\ @abuild_from_list Example.Z_numpy Example.embedding_ok ["cat"]
             (Some [MdObject Sample.notes]) w0
           = (w', Ok tt)
        /\ snd (retrieve_from_key "chunk_0" w0) = Ok (Some [0; 1])
        /\ snd (retrieve_from_key "chunk_0" w') = Ok (Some [1; 0])
        /\ length (vectors (db w')) = 1%nat).
Proof.
  split.
  - eexists _, _, _. split; [vm_compute; reflexivity|].
    split; [vm_compute; reflexivity|]. split; vm_compute; reflexivity.
  - eexists _, _. split; [vm_compute; reflexivity|].
    split; [vm_compute; reflexivity|]. repeat split; vm_compute; reflexivity.
Qed.

Lemma abuild_from_list_across_calls_witness :
  exists w1 w2 v d,
    @abuild_from_list Example.Z_numpy Example.embedding_ok ["cat"; "dog"]
      (Some [MdDict 0%nat; MdObject Sample.notes]) Example.empty_store
    = (w1, Ok tt)
    /\ @abuild_from_list Example.Z_numpy Example.embedding_ok ["cat"]
         (Some [MdObject Sample.notes]) w1
       = (w2, Ok tt)
    /\ chunk_counter (db w2) = 3
    /\ assoc_get "chunk_2" (vectors (db w2)) = Some v
    /\ objects w2 !! metadata v = Some d
    /\ assoc_get "chunk_index" d = Some (VInt 0).
Proof.
  destruct (@abuild_from_list_across_calls Example.Z_numpy Example.embedding_ok
              Example.empty_store ["cat"; "dog"] ["cat"] [[1; 0]; [0; 1]] [[1; 0]]
              [MdDict 0%nat; MdObject Sample.notes] [MdObject Sample.notes])
    as (w1 & w2 & Hrun1 & Hrun2 & Hc & _ & _ & Hsecond & _).
  - reflexivity.
  - reflexivity.
  - reflexivity.
  - reflexivity.
  - reflexivity.
  - reflexivity.
  - intros j Hj. reflexivity.
  - intros [|[|[|j]]] l Hl; simpl in Hl; try done.
    injection Hl as <-. simpl. lia.
  - intros [|[|[|j1]]] [|[|[|j2]]] l H1 H2; simpl in H1, H2; try done.
  - destruct (Hsecond 0%nat [1; 0] eq_refl) as (_ & v & d & Hget & _ & Hobj & Hidx).
    exists w1, w2, v, d. split; [exact Hrun1|]. split; [exact Hrun2|].
    split; [exact Hc|]. split; [exact Hget|]. split; [exact Hobj|exact Hidx].
Defined.

(** *** Ingestion without metadata, and the way back from a key to its text *)

Section IngestMoreFacts.
Context `{NP : Numpy}.

Lemma abuild_step_no_metadata (metadata_list : option (list md_entry)) (i : nat)
    (text : string) (emb : vec) (w : world) :
  metadata_list = None \/ metadata_list = Some [] ->
  exists w',
    abuild_step metadata_list (i, (text, emb)) w = (w', Ok tt)
    /\ chunk_counter (db w') = chunk_counter (db w) + 1
    /\ vectors (db w')
       = assoc_set (chunk_key (chunk_counter (db w)))
           {| vector := emb; metadata := length (objects w) |} (vectors (db w))
    /\ objects w' = objects w ++ [[]].
Proof.
  intros [-> | ->]; unfold abuild_step; run_M;
    unfold modify_db, alloc, insert, dict_setitem; run_M; by eexists.
Qed.

Lemma abuild_loop_no_metadata (metadata_list : option (list md_entry))
    (tes : list (string * vec)) :
  metadata_list = None \/ metadata_list = Some [] ->
  forall (i0 : nat) (w : world),
  counter_fresh (db w) ->
  exists w',
    for_each (enumerate_from i0 tes)
      (fun item _ => abuild_step metadata_list item) tt w = (w', Ok tt)
    /\ objects w' = objects w ++ replicate (length tes) []
    /\ (forall key,
          (forall j, (j < length tes)%nat ->
                     key <> chunk_key (chunk_counter (db w) + Z.of_nat j)) ->
          assoc_get key (vectors (db w')) = assoc_get key (vectors (db w)))
    /\ (forall j te, tes !! j = Some te ->
          assoc_get (chunk_key (chunk_counter (db w) + Z.of_nat j)) (vectors (db w'))
          = Some {| vector := snd te; metadata := (length (objects w) + j)%nat |}).
Proof.
  intros Hnone. induction tes as [|[text emb] tes IH]; intros i0 w Hfresh.
  - exists w. simpl. rewrite app_nil_r. repeat split; done.
  - destruct (abuild_step_no_metadata metadata_list i0 text emb w Hnone)
      as (w1 & Hstep & Hc1 & Hv1 & Ho1).
    destruct (IH (S i0) w1) as (w' & Hloop & Ho & Hfv & Hpost).
    { intros j Hj. rewrite Hv1. rewrite assoc_get_set_ne.
      - apply Hfresh. lia.
      - intros Heq%chunk_key_inj. lia. }
    exists w'. cbn [for_each enumerate_from length]. unfold bind at 1.
    rewrite Hstep. split; [exact Hloop|]. split; [|split].
    + rewrite Ho, Ho1. rewrite <- app_assoc. done.
    + intros key Hkey. rewrite Hfv.
      * rewrite Hv1. apply assoc_get_set_ne.
        specialize (Hkey 0%nat ltac:(lia)). rewrite Z.add_0_r in Hkey. congruence.
      * intros j Hj. specialize (Hkey (S j) ltac:(lia)).
        rewrite Hc1. by replace (chunk_counter (db w) + 1 + Z.of_nat j)
          with (chunk_counter (db w) + Z.of_nat (S j)) by lia.
    + intros [|j] te Hte; simpl in Hte.
      * injection Hte as <-. rewrite Z.add_0_r, Nat.add_0_r. rewrite Hfv.
        -- rewrite Hv1. apply assoc_get_set_eq.
        -- intros j Hj Heq%chunk_key_inj. lia.
      * specialize (Hpost j te Hte). rewrite Hc1, Ho1, length_app in Hpost.
        replace (chunk_counter (db w) + Z.of_nat (S j))
          with (chunk_counter (db w) + 1 + Z.of_nat j) by lia.
        rewrite Hpost. do 2 f_equal. simpl. lia.
Qed.

Lemma assoc_get_Some_elem_of {K V : Type} `{EqDecision K} (k : K) (v : V)
    (d : list (K * V)) :
  assoc_get k d = Some v -> k ∈ d.*1.
Proof.
  induction d as [|[k' v'] d IH]; simpl; [done|].
  destruct (decide (k' = k)) as [->|Hne]; [intros _; by left|].
  intros Hget. right. by apply IH.
Qed.

(** On a mapping with one entry per text, the scan of [search_by_text]
    finds the text of a key that exactly one text is mapped to, and
    nothing for a key that no text is mapped to. *)
Lemma text_of_key_spec (d : list (string * string)) :
  NoDup d.*1 ->
  (forall text key, assoc_get text d = Some key ->
     (forall text', assoc_get text' d = Some key -> text' = text) ->
     text_of_key key d = Some text)
  /\ (forall key, (forall text', assoc_get text' d <> Some key) ->
        text_of_key key d = None).
Proof.
  induction d as [|[t0 k0] d IH]; simpl; intros Hnd; [split; [done|done]|].
  apply NoDup_cons in Hnd as [Hnotin Hnd]. destruct (IH Hnd) as [IH1 IH2].
  assert (Hother : forall text' key, assoc_get text' d = Some key -> t0 <> text').
  { intros text' key Hget ->. apply Hnotin. by eapply assoc_get_Some_elem_of. }
  split.
  - intros text key Hget Huniq. destruct (decide (k0 = key)) as [->|Hk].
    + f_equal. apply Huniq. by rewrite decide_True.
    + destruct (decide (t0 = text)) as [->|Ht]; [congruence|].
      apply IH1; [done|]. intros text' Hget'. apply Huniq.
      rewrite decide_False; [done|]. by eapply Hother.
  - intros key Hnone. destruct (decide (k0 = key)) as [->|Hk].
    + exfalso. apply (Hnone t0). by rewrite decide_True.
    + apply IH2. intros text' Hget'. apply (Hnone text').
      rewrite decide_False; [done|]. by eapply Hother.
Qed.

Lemma last_occurrence (text : string) (texts : list string) :
  text ∈ texts ->
  exists j : nat, texts !! j = Some text
                  /\ forall j', (j < j')%nat -> texts !! j' <> Some text.
Proof.
  induction texts as [|x texts IH]; [by intros ?%elem_of_nil|].
  intros Hin. destruct (decide (text ∈ texts)) as [Hlater|Hnot].
  - destruct (IH Hlater) as (j & Hj & Hlast). exists (S j). split; [done|].
    intros [|j'] Hlt; [lia|]. simpl. apply Hlast. lia.
  - apply elem_of_cons in Hin as [->|Hin]; [|done]. exists 0%nat. split; [done|].
    intros [|j'] Hlt; [lia|]. simpl. intros Hj'. apply Hnot.
    by eapply list_elem_of_lookup_2.
Qed.

End IngestMoreFacts.

Section IngestMoreTheorems.
Context `{NP : Numpy} `{EM : !EmbeddingModel}.

(** Without a metadata list (None or empty), every new record gets an empty
    dictionary of its own, allocated after the existing ones, which are
    left as they were; no [chunk_index] is written. *)
Theorem abuild_from_list_without_metadata (w : world) (texts : list string)
    (embs : list vec) (metadata_list : option (list md_entry)) :
  metadata_list = None \/ metadata_list = Some [] ->
  async_get_embeddings texts = Ok embs ->
  length embs = length texts ->
  counter_fresh (db w) ->
  exists w',
    abuild_from_list texts metadata_list w = (w', Ok tt)
    /\ objects w' = objects w ++ replicate (length texts) []
    /\ forall (j : nat) emb, embs !! j = Some emb ->
         assoc_get (chunk_key (chunk_counter (db w) + Z.of_nat j)) (vectors (db w'))
         = Some {| vector := emb; metadata := (length (objects w) + j)%nat |}
         /\ objects w' !! (length (objects w) + j)%nat = Some [].
Proof.
  intros Hnone Hemb Hlen Hfresh.
  rewrite (abuild_from_list_unfold _ _ _ _ Hemb).
  destruct (abuild_loop_no_metadata metadata_list (py_zip texts embs) Hnone
              0%nat w Hfresh) as (w' & Hloop & Ho & _ & Hpost).
  rewrite py_zip_length in Ho by done.
  exists w'. split; [done|]. split; [done|].
  intros j emb Hj.
  assert (Hjlt : (j < length texts)%nat)
    by (rewrite <- Hlen; by eapply lookup_lt_Some).
  destruct (lookup_lt_is_Some_2 texts j Hjlt) as [text Htext]. split.
  - apply (Hpost j (text, emb)). by apply py_zip_lookup.
  - rewrite Ho. rewrite lookup_app_r by lia.
    apply lookup_replicate_2. lia.
Qed.

(** The way back from a key to its text after ingestion, as
    [search_by_text] looks it up: the key of the last occurrence of a text
    leads back to the text; the key of an earlier occurrence of a text that
    is ingested again later in the call leads to no text (and
    [search_by_text] then shows the key itself). The mapping is assumed to
    hold one entry per text and only keys below the counter, as it does in
    a store filled by ingestion. *)
Theorem abuild_from_list_text_of_key (w : world) (texts : list string)
    (embs : list vec) (metadata_list : option (list md_entry)) :
  async_get_embeddings texts = Ok embs ->
  length embs = length texts ->
  counter_fresh (db w) ->
  NoDup (text_to_key (db w)).*1 ->
  (forall text j, assoc_get text (text_to_key (db w)) = Some (chunk_key j) ->
                  j < chunk_counter (db w)) ->
  exists w',
    abuild_from_list texts metadata_list w = (w', Ok tt)
    /\ forall (j : nat) text, texts !! j = Some text ->
         ((forall j', (j < j')%nat -> texts !! j' <> Some text) ->
          text_of_key (chunk_key (chunk_counter (db w) + Z.of_nat j))
            (text_to_key (db w')) = Some text)
         /\ ((exists j', (j < j')%nat /\ texts !! j' = Some text) ->
             text_of_key (chunk_key (chunk_counter (db w) + Z.of_nat j))
               (text_to_key (db w')) = None).
Proof.
  intros Hemb Hlen Hfresh Hnd Hold.
  rewrite (abuild_from_list_unfold _ _ _ _ Hemb).
  destruct (abuild_loop_db metadata_list (py_zip texts embs) 0%nat w Hfresh)
    as (w' & Hloop & _ & _ & _ & Hnd' & Hframe & Hlast).
  exists w'. split; [done|].
  destruct (text_of_key_spec (text_to_key (db w')) (Hnd' Hnd)) as [Hfound Hnone].
  assert (Hmapped : forall (j : nat) text, texts !! j = Some text ->
            (forall j', (j < j')%nat -> texts !! j' <> Some text) ->
            assoc_get text (text_to_key (db w'))
            = Some (chunk_key (chunk_counter (db w) + Z.of_nat j))).
  { intros j text Htext Hlater.
    assert (Hjlt : (j < length embs)%nat)
      by (rewrite Hlen; by eapply lookup_lt_Some).
    destruct (lookup_lt_is_Some_2 embs j Hjlt) as [emb Hemb_j].
    apply (Hlast j (text, emb)).
    - by apply py_zip_lookup.
    - intros j' [text' emb'] Hj' [Ht' _]%py_zip_lookup. simpl.
      intros ->. by apply (Hlater j'). }
  assert (Hwho : forall (j : nat) text',
            assoc_get text' (text_to_key (db w'))
            = Some (chunk_key (chunk_counter (db w) + Z.of_nat j)) ->
            texts !! j = Some text'
            /\ forall j', (j < j')%nat -> texts !! j' <> Some text').
  { intros j text' Hget. destruct (decide (text' ∈ texts)) as [Hin|Hnotin].
    - destruct (last_occurrence text' texts Hin) as (j0 & Hj0 & Hlast0).
      rewrite (Hmapped j0 text' Hj0 Hlast0) in Hget.
      assert (chunk_key (chunk_counter (db w) + Z.of_nat j0)
              = chunk_key (chunk_counter (db w) + Z.of_nat j))
        as Heq%chunk_key_inj by congruence.
      assert (j0 = j) as -> by lia. done.
    - rewrite Hframe in Hget.
      + apply Hold in Hget. lia.
      + intros j0 [text0 emb0] [Ht0 _]%py_zip_lookup. simpl. intros ->.
        apply Hnotin. by eapply list_elem_of_lookup_2. }
  intros j text Htext. split.
  - intros Hlater. apply Hfound; [by apply Hmapped|].
    intros text' Hget. apply Hwho in Hget as [Hj _]. congruence.
  - intros (j' & Hlt & Hj'). apply Hnone. intros text' Hget.
    apply Hwho in Hget as [Hj Hlater].
    assert (text' = text) as -> by congruence. by apply (Hlater j').
Qed.

End IngestMoreTheorems.

Lemma abuild_from_list_without_metadata_witness :
  exists w',
    @abuild_from_list Example.Z_numpy Example.embedding_ok ["cat"; "dog"] (Some [])
      Example.empty_store = (w', Ok tt)
    /\ objects w' = objects Example.empty_store ++ [[]; []].
Proof.
  destruct (@abuild_from_list_without_metadata Example.Z_numpy Example.embedding_ok
              Example.empty_store ["cat"; "dog"] [[1; 0]; [0; 1]] (Some []))
    as (w' & Hrun & Hobjects & _).
  - right. reflexivity.
  - reflexivity.
  - reflexivity.
  - intros j Hj. reflexivity.
  - exists w'. split; [exact Hrun|exact Hobjects].
Defined.

Lemma abuild_from_list_text_of_key_witness :
  exists w',
    @abuild_from_list Example.Z_numpy Example.embedding_ok ["cat"; "dog"; "cat"] None
      Example.empty_store = (w', Ok tt)
    /\ text_of_key "chunk_2" (text_to_key (db w')) = Some "cat"
    /\ text_of_key "chunk_0" (text_to_key (db w')) = None.
Proof.
  destruct (@abuild_from_list_text_of_key Example.Z_numpy Example.embedding_ok
              Example.empty_store ["cat"; "dog"; "cat"] [[1; 0]; [0; 1]; [1; 0]] None)
    as (w' & Hrun & Hback).
  - reflexivity.
  - reflexivity.
  - intros j Hj. reflexivity.
  - simpl. apply NoDup_nil_2.
  - intros text j Hget. simpl in Hget. done.
  - exists w'. split; [exact Hrun|]. split.
    + apply (Hback 2%nat "cat"); [reflexivity|].
      intros [|[|[|j']]] Hj' Hl; simpl in Hl; try lia; done.
    + apply (Hback 0%nat "cat"); [reflexivity|].
      exists 2%nat. split; [lia|reflexivity].
Defined.

(** ** The vector store: insertion, lookup, statistics *)

Section StoreTheorems.
Context `{NP : Numpy}.

Lemma insert_run (w : world) (key : string) (v : vec) (md : option nat) :
  insert key v md w
  = ({| objects := match md with
                   | Some _ => objects w
                   | None => objects w ++ [[]]
                   end;
        db := {| vectors :=
                   assoc_set key
                     {| vector := v;
                        metadata := match md with
                                    | Some l => l
                                    | None => length (objects w)
                                    end |}
                     (vectors (db w));
                 text_to_key := text_to_key (db w);
                 chunk_counter := chunk_counter (db w) |} |},
     Ok tt).
Proof. by destruct md. Qed.

(** [insert] stores or overwrites: the vector can be read back under its
    key, every other key reads as before (the record under it is the one
    it was), the number of records grows by one for a new key and not at
    all for a key already present, the counter and the text mapping are
    not touched. The record stored under the key holds the vector and, as
    its metadata, the dictionary that was passed, which is not copied and
    not written; a record inserted without metadata gets a new empty
    dictionary of its own: its metadata is a dictionary that did not exist
    before the call, that is empty after it, and the dictionaries that
    existed are as they were. *)
Theorem insert_then_retrieve (w : world) (key : string) (v : vec)
    (md : option nat) :
  exists w',
    insert key v md w = (w', Ok tt)
    /\ retrieve_from_key key w' = (w', Ok (Some v))
    /\ (forall key', key' <> key ->
          snd (retrieve_from_key key' w') = snd (retrieve_from_key key' w))
    /\ length (vectors (db w'))
       = match assoc_get key (vectors (db w)) with
         | Some _ => length (vectors (db w))
         | None => S (length (vectors (db w)))
         end
    /\ text_to_key (db w') = text_to_key (db w)
    /\ chunk_counter (db w') = chunk_counter (db w)
    /\ objects w' = match md with
                    | Some _ => objects w
                    | None => objects w ++ [[]]
                    end
    /\ (exists stored,
          assoc_get key (vectors (db w')) = Some stored
          /\ vector stored = v
          /\ match md with
             | Some l => metadata stored = l
             | None =>
                 objects w !! metadata stored = None
                 /\ objects w' !! metadata stored = Some []
                 /\ (forall l d, objects w !! l = Some d -> objects w' !! l = Some d)
             end)
    /\ (forall key', key' <> key ->
          assoc_get key' (vectors (db w')) = assoc_get key' (vectors (db w))).
Proof.
  rewrite insert_run. eexists. split; [reflexivity|].
  rewrite retrieve_from_key_run. cbn [db vectors objects text_to_key chunk_counter].
  rewrite assoc_get_set_eq. split; [done|]. split; [|split; [|split; [|split; [|split; [|split]]]]];
    try done.
  - intros key' Hne. rewrite !retrieve_from_key_run.
    cbn [db vectors snd]. by rewrite assoc_get_set_ne.
  - destruct (assoc_get key (vectors (db w))) as [v0|] eqn:Hget;
      eauto using assoc_set_length_present, assoc_set_length_fresh.
  - eexists. split; [reflexivity|]. split; [done|].
    destruct md as [l|]; [done|]. cbn [metadata]. split; [|split].
    + apply lookup_ge_None_2. lia.
    + rewrite lookup_app_r by lia. by rewrite Nat.sub_diag.
    + intros l d Hl. by apply lookup_app_l_Some.
  - intros key' Hne. by rewrite assoc_get_set_ne.
Qed.

(** A key that was never stored reads as no value, and reading it does not
    store anything. *)
Theorem retrieve_missing_key (w : world) (key : string) :
  assoc_get key (vectors (db w)) = None ->
  retrieve_from_key key w = (w, Ok None).
Proof. intros Hnone. rewrite retrieve_from_key_run. by rewrite Hnone. Qed.

Lemma total_count_bump (file_type : pyval) (file_types : list (pyval * Z)) :
  total_count (assoc_set file_type
                 (default 0 (assoc_get file_type file_types) + 1) file_types)
  = total_count file_types + 1.
Proof.
  induction file_types as [|[k c] d IH]; simpl; [lia|].
  destruct (decide (k = file_type)) as [->|Hne]; simpl.
  - unfold total_count. simpl. lia.
  - unfold total_count in *. simpl. rewrite IH. lia.
Qed.

Lemma counts_positive_bump (file_type : pyval) (file_types : list (pyval * Z)) :
  Forall (fun entry => 1 <= snd entry) file_types ->
  Forall (fun entry => 1 <= snd entry)
    (assoc_set file_type (default 0 (assoc_get file_type file_types) + 1) file_types).
Proof.
  induction 1 as [|[k c] d Hc Hd IH]; simpl.
  - repeat constructor. simpl. lia.
  - destruct (decide (k = file_type)) as [->|Hne]; simpl.
    + constructor; [simpl in *; lia|done].
    + constructor; [done|]. apply IH.
Qed.

(** What one record adds to the count kept under [ft]. *)
Lemma stats_step_count (w : world) (item : string * VectorWithMetadata)
    (file_types : list (pyval * Z)) (ft : pyval) :
  default 0
    (assoc_get ft
       (assoc_set (default (VStr "unknown") (file_type_of w item))
          (default 0 (assoc_get (default (VStr "unknown") (file_type_of w item))
                        file_types) + 1)
          file_types))
  = default 0 (assoc_get ft file_types)
    + Z.of_nat (length (records_of_file_type w (Some ft) [item]))
    + (if decide (ft = VStr "unknown")
       then Z.of_nat (length (records_of_file_type w None [item]))
       else 0).
Proof.
  unfold records_of_file_type. rewrite !filter_cons, !filter_nil.
  destruct (file_type_of w item) as [t|] eqn:Hft; simpl.
  - destruct (decide (t = ft)) as [->|Hne].
    + rewrite assoc_get_set_eq. repeat case_decide; simplify_eq; simpl; lia.
    + rewrite assoc_get_set_ne by done. repeat case_decide; simplify_eq; simpl; lia.
  - destruct (decide (ft = VStr "unknown")) as [->|Hne].
    + rewrite assoc_get_set_eq. repeat case_decide; simplify_eq; simpl; lia.
    + rewrite assoc_get_set_ne by done. repeat case_decide; simplify_eq; simpl; lia.
Qed.

Lemma records_of_file_type_cons (w : world) (entry : option pyval)
    (item : string * VectorWithMetadata)
    (items : list (string * VectorWithMetadata)) :
  length (records_of_file_type w entry (item :: items))
  = (length (records_of_file_type w entry [item])
     + length (records_of_file_type w entry items))%nat.
Proof.
  unfold records_of_file_type. rewrite !(filter_cons _ item), filter_nil.
  by destruct (decide _).
Qed.

Lemma stats_loop_counts (w : world) (items : list (string * VectorWithMetadata))
    (file_types : list (pyval * Z)) :
  NoDup file_types.*1 ->
  Forall (fun entry => 1 <= snd entry) file_types ->
  exists file_types',
    for_each items stats_step file_types w = (w, Ok file_types')
    /\ total_count file_types' = total_count file_types + Z.of_nat (length items)
    /\ NoDup file_types'.*1
    /\ Forall (fun entry => 1 <= snd entry) file_types'
    /\ (forall ft : pyval,
          default 0 (assoc_get ft file_types')
          = default 0 (assoc_get ft file_types)
            + Z.of_nat (length (records_of_file_type w (Some ft) items))
            + (if decide (ft = VStr "unknown")
               then Z.of_nat (length (records_of_file_type w None items))
               else 0)).
Proof.
  revert file_types. induction items as [|[key v] items IH]; intros file_types Hnd Hpos.
  - exists file_types. simpl. rewrite Z.add_0_r. repeat split; try done.
    intros ft. unfold records_of_file_type. simpl.
    destruct (decide _); lia.
  - cbn [for_each]. unfold bind at 1. unfold stats_step at 1. run_M.
    set (ft := default (VStr "unknown") _).
    destruct (IH (assoc_set ft (default 0 (assoc_get ft file_types) + 1) file_types))
      as (file_types' & Hloop & Hsum & Hnd' & Hpos' & Hcount).
    { by apply assoc_set_keys_NoDup. }
    { by apply counts_positive_bump. }
    exists file_types'. split; [done|]. split; [|split; [done|split; [done|]]].
    + rewrite Hsum, total_count_bump. lia.
    + intros ft'. rewrite Hcount. subst ft.
      change (assoc_get "file_type" (deref (objects w) (metadata v)))
        with (file_type_of w (key, v)).
      rewrite (stats_step_count w (key, v)).
      rewrite !(records_of_file_type_cons w _ (key, v) items).
      destruct (decide (ft' = VStr "unknown")); lia.
Qed.

(** [get_database_stats] reads the store without changing it: the total is
    the number of records, every file type is listed once with a count of
    at least one, and the counts add up to the total. The count kept under
    a key is the number of records whose metadata has that key as its
    [file_type], to which the key "unknown" adds the records whose
    metadata has no [file_type]; a key no record is counted under is not
    listed. *)
Theorem get_database_stats_counts (w : world) :
  exists file_types,
    get_database_stats w
    = (w, Ok {| total_vectors := Z.of_nat (length (vectors (db w)));
                file_types := file_types;
                available_distance_metrics := ["cosine"; "euclidean"; "manhattan"] |})
    /\ total_count file_types = Z.of_nat (length (vectors (db w)))
    /\ NoDup file_types.*1
    /\ Forall (fun entry => 1 <= snd entry) file_types
    /\ (forall ft : pyval,
          default 0 (assoc_get ft file_types)
          = count_file_type w (Some ft)
            + (if decide (ft = VStr "unknown") then count_file_type w None else 0))
    /\ (forall ft : pyval,
          assoc_get ft file_types = None <->
          count_file_type w (Some ft)
          + (if decide (ft = VStr "unknown") then count_file_type w None else 0)
          = 0).
Proof.
  unfold get_database_stats. run_M.
  destruct (stats_loop_counts w (vectors (db w)) [])
    as (file_types & -> & Hsum & Hnd & Hpos & Hcount);
    [apply NoDup_nil_2|constructor|].
  exists file_types. split; [done|]. split; [done|]. split; [done|]. split; [done|].
  assert (Hkey : forall ft : pyval,
            default 0 (assoc_get ft file_types)
            = count_file_type w (Some ft)
              + (if decide (ft = VStr "unknown") then count_file_type w None else 0)).
  { intros ft. rewrite Hcount. simpl. unfold count_file_type.
    destruct (decide _); lia. }
  split; [exact Hkey|].
  intros ft. rewrite <- Hkey. split; [by intros ->|].
  destruct (assoc_get ft file_types) as [c|] eqn:Hget; [|done].
  simpl. intros ->. exfalso.
  assert (Hin : (ft, 0) ∈ file_types).
  { clear -Hget. induction file_types as [|[k c] d IH]; [done|].
    simpl in Hget. destruct (decide (k = ft)) as [->|Hne].
    - injection Hget as ->. left.
    - right. by apply IH. }
  rewrite Forall_forall in Hpos. apply Hpos in Hin. simpl in Hin. lia.
Qed.

End StoreTheorems.

Lemma retrieve_missing_key_witness :
  @retrieve_from_key Example.Z_numpy "chunk_7" Example.two_chunks
  = (Example.two_chunks, Ok None).
Proof.
  apply (@retrieve_missing_key Example.Z_numpy). reflexivity.
Defined.

(** ** The vector store: more about search *)

Section SearchMoreTheorems.
Context `{NP : Numpy} `{EM : !EmbeddingModel}.

(** An empty string as file-type filter is no filter at all. *)
Theorem search_empty_filter (w : world) (q : vec) (k : Z) (m : measure) :
  search q k m (Some "") w = search q k m None w.
Proof. by rewrite !search_run. Qed.

(** A metric name the store does not know gives exactly what passing the
    module's [cosine_similarity] as a callable gives: cosine scores in
    ascending order. *)
Theorem search_unknown_name_as_callable (w : world) (q : vec) (k : Z)
    (name : string) (filt : option string) :
  name <> "cosine" -> name <> "euclidean" -> name <> "manhattan" ->
  search q k (DStr name) filt w = search q k (DFun cosine_similarity) filt w.
Proof.
  intros H1 H2 H3. rewrite !search_run.
  destruct (unknown_name_flags name H1 H2 H3) as [-> ->]. done.
Qed.

Lemma candidates_no_filter (h : list (list (string * pyval)))
    (f : vec -> vec -> score) (q : vec) (filt : option string)
    (items : list (string * VectorWithMetadata)) :
  filter_active filt = false ->
  (candidates h f q filt items).*1.*1 = items.*1
  /\ length (candidates h f q filt items) = length items.
Proof.
  intros Hoff. unfold candidates. rewrite Hoff. simpl.
  induction items as [|[key v] items IH]; [done|].
  destruct IH as [IH1 IH2]. simpl. split; by f_equal.
Qed.

(** When k is at least the number of records nothing is cut: the result is
    a rearrangement of the scored candidates, so without a filter every
    record of the store appears in it, and appears once. *)
Theorem search_returns_all_when_k_large (w : world) (q : vec) (k : Z)
    (m : measure) (filt : option string) :
  Z.of_nat (length (vectors (db w))) <= k ->
  exists res,
    search q k m filt w = (w, Ok res)
    /\ res ≡ₚ candidates (objects w) (select_distance_func m) q filt (vectors (db w))
    /\ (filter_active filt = false ->
        res.*1.*1 ≡ₚ (vectors (db w)).*1
        /\ length res = length (vectors (db w))).
Proof.
  intros Hk. rewrite search_run. eexists. split; [reflexivity|].
  set (c := candidates _ _ _ _ _).
  assert (Hall : slice_to (sorted c (reverse_flag m)) k = sorted c (reverse_flag m)).
  { rewrite slice_to_nonneg by lia. apply take_ge. rewrite sorted_length.
    pose proof (candidates_length (objects w) (select_distance_func m) q filt
                  (vectors (db w))). fold c in H. lia. }
  rewrite Hall. split; [apply sorted_Permutation|].
  intros Hoff.
  assert (Hc : c.*1.*1 = (vectors (db w)).*1 /\ length c = length (vectors (db w))).
  { subst c. by apply candidates_no_filter. }
  destruct Hc as [Hkeys Hlen]. split.
  - rewrite <- Hkeys. by rewrite sorted_Permutation.
  - by rewrite sorted_length.
Qed.

(** [search_by_text] with [return_as_text=True] and [include_metadata=True]
    returns what it returns with [return_as_text=False]: full tuples. Bare
    texts come only with [return_as_text] alone, and they are the first
    components of those tuples; when the embedding call raises, so does
    [search_by_text], in every shape, and the store is as it was. *)
Theorem search_by_text_shapes (w : world) (query_text : string) (k : Z)
    (m : measure) (filt : option string) :
  (forall include_metadata,
     search_by_text query_text k m false include_metadata filt w
     = search_by_text query_text k m true true filt w)
  /\ (forall e, get_embedding query_text = Raise e ->
        forall return_as_text include_metadata,
          search_by_text query_text k m return_as_text include_metadata filt w
          = (w, Raise e))
  /\ (forall v, get_embedding query_text = Ok v ->
        exists rows,
          search_by_text query_text k m true true filt w = (w, Ok (Tuples rows))
          /\ search_by_text query_text k m true false filt w
             = (w, Ok (Texts rows.*1.*1))
          /\ length rows = length (slice_to
               (sorted (candidates (objects w) (select_distance_func m) v filt
                          (vectors (db w))) (reverse_flag m)) k)).
Proof.
  split; [|split].
  - intros include_metadata. unfold search_by_text. run_M.
    destruct (get_embedding query_text); [|done]. by rewrite search_run.
  - intros e He rt im.
    pose proof (search_by_text_run w query_text k m rt im filt) as Hrun.
    by rewrite He in Hrun.
  - intros v Hv. unfold search_by_text. run_M. rewrite Hv, search_run. simpl.
    eexists. split; [reflexivity|]. split.
    + f_equal. f_equal. f_equal.
      generalize (slice_to
        (sorted (candidates (objects w) (select_distance_func m) v filt
                   (vectors (db w))) (reverse_flag m)) k).
      intros l. induction l as [|[[key s] md] l IH]; [done|].
      simpl. by f_equal.
    + by rewrite length_map.
Qed.

End SearchMoreTheorems.

Lemma search_unknown_name_as_callable_witness :
  @search Example.Z_numpy [1; 0] 2 (DStr "foo") None Example.two_chunks
  = @search Example.Z_numpy [1; 0] 2
      (@DFun Example.Z_numpy (@cosine_similarity Example.Z_numpy)) None
      Example.two_chunks.
Proof.
  apply (@search_unknown_name_as_callable Example.Z_numpy); done.
Defined.

Lemma search_returns_all_when_k_large_witness :
  exists res,
    @search Example.Z_numpy [1; 0] 5 (DStr "manhattan") None Example.two_chunks
    = (Example.two_chunks, Ok res)
    /\ length res = 2%nat.
Proof.
  destruct (@search_returns_all_when_k_large Example.Z_numpy Example.two_chunks
              [1; 0] 5 (DStr "manhattan") None) as (res & Hres & _ & Hall).
  - simpl. lia.
  - exists res. split; [exact Hres|]. apply Hall. reflexivity.
Defined.

(** ** The splitter: every window, and the text back from the windows *)

Lemma substring_empty (a n : nat) : String.substring a n "" = "".
Proof. by destruct a, n. Qed.

Lemma substring_length (s : string) (a n : nat) :
  String.length (String.substring a n s) = window_length (String.length s) a n.
Proof.
  unfold window_length. revert a n. induction s as [|c s IH]; intros a n.
  - rewrite substring_empty. simpl. lia.
  - destruct a as [|a]; simpl.
    + destruct n as [|n]; simpl; [done|]. rewrite IH. lia.
    + rewrite IH. done.
Qed.

(** [s[lo:hi]] for bounds in the usual order is the substring of [hi - lo]
    characters from [lo], cut at the end of [s]. *)
Lemma str_slice_substring (s : string) (lo hi : Z) :
  0 <= lo <= hi ->
  str_slice s lo hi = String.substring (Z.to_nat lo) (Z.to_nat (hi - lo)) s.
Proof.
  intros [Hlo Hhi]. unfold str_slice, adjust_index.
  destruct (Z.ltb_spec lo 0); [lia|]. destruct (Z.ltb_spec hi 0); [lia|].
  set (len := String.length s).
  assert (Hgen : forall (a n m : nat),
    Nat.min n (len - a) = Nat.min m (len - a) ->
    String.substring a n s = String.substring a m s).
  { subst len. clear. induction s as [|c s IH]; intros a n m Hmin.
    - by rewrite !substring_empty.
    - destruct a as [|a]; simpl in *.
      + destruct n as [|n], m as [|m]; simpl in *; try lia; [done|].
        f_equal. apply IH. lia.
      + apply IH. done. }
  destruct (Z.le_gt_cases lo (Z.of_nat len)) as [Hin|Hout].
  - rewrite (Z.min_l lo) by lia. apply Hgen. lia.
  - rewrite (Z.min_r lo) by lia. rewrite (Z.min_r hi) by lia.
    rewrite Z.sub_diag, Nat2Z.id. simpl.
    assert (Hout' : forall (a n : nat), (len <= a)%nat -> String.substring a n s = "").
    { subst len. clear. induction s as [|c s IH]; intros a n Ha.
      - apply substring_empty.
      - destruct a as [|a]; simpl in *; [lia|]. apply IH. lia. }
    rewrite !Hout' by lia. done.
Qed.

Lemma substring_of_substring (s : string) (a n m : nat) :
  (m <= n)%nat ->
  String.substring 0 m (String.substring a n s) = String.substring a m s.
Proof.
  revert a n m. induction s as [|c s IH]; intros a n m Hmn.
  - by rewrite !substring_empty.
  - destruct a as [|a]; simpl.
    + destruct n as [|n], m as [|m]; simpl; try lia; try done.
      f_equal. apply IH. lia.
    + by apply IH.
Qed.

Lemma substring_shift (s : string) (k a n m : nat) :
  (String.length s <= m)%nat ->
  String.substring (k + a) n s = String.substring a n (String.substring k m s).
Proof.
  revert k m. induction s as [|c s IH]; intros k m Hm.
  - by rewrite !substring_empty.
  - destruct k as [|k].
    + rewrite (substring_whole (String c s) m) by done. done.
    + simpl. apply IH. simpl in Hm. lia.
Qed.

Lemma substring_split (s : string) (k m : nat) :
  (String.length s <= k + m)%nat ->
  String.substring 0 k s +:+ String.substring k m s = s.
Proof.
  revert k. induction s as [|c s IH]; intros k Hlen.
  - by rewrite !substring_empty.
  - destruct k as [|k].
    + rewrite (substring_whole (String c s) m) by (simpl in *; lia). done.
    + change (String c (String.substring 0 k s +:+ String.substring k m s)
              = String c s).
      f_equal. apply IH. simpl in Hlen. lia.
Qed.

Lemma append_empty_r (s : string) : s +:+ "" = s.
Proof.
  induction s as [|c s IH]; [done|].
  change (String c (s +:+ "") = String c s). by f_equal.
Qed.

Lemma concat_empty_sep_cons (x : string) (l : list string) :
  String.concat "" (x :: l) = x +:+ String.concat "" l.
Proof.
  destruct l as [|y l]; [|reflexivity].
  change (x = x +:+ ""). by rewrite append_empty_r.
Qed.

(** Joining the first [stride] characters of the windows that start at
    0, stride, 2 stride, ... gives the text back. *)
Lemma concat_strides (stride : nat) (n : nat) :
  (0 < stride)%nat ->
  forall s, (String.length s <= n * stride)%nat ->
  String.concat ""
    (map (fun j : nat => String.substring (j * stride) stride s) (seq 0 n)) = s.
Proof.
  intros Hstride. induction n as [|n IH]; intros s Hlen.
  - destruct s; simpl in *; [done|lia].
  - cbn [seq map]. rewrite concat_empty_sep_cons.
    rewrite <- seq_shift, map_map.
    rewrite (map_ext _ (fun j : nat =>
      String.substring (j * stride) stride
        (String.substring stride (String.length s) s))).
    + rewrite IH.
      * simpl. apply substring_split. lia.
      * rewrite substring_length. unfold window_length. lia.
    + intros j. replace (S j * stride)%nat with (stride + j * stride)%nat by lia.
      by apply substring_shift.
Qed.

(** For a splitter that passed the constructor's check and has a positive
    chunk size, [split] never raises and returns ceil(len / stride)
    windows; window j is the text from offset j * stride, [chunk_size]
    characters long or as many as are left, and never empty. *)
Theorem split_windows (sp : CharacterTextSplitter) (text : string) :
  chunk_overlap sp < chunk_size sp ->
  0 < chunk_size sp ->
  let len := String.length text in
  let stride := Z.to_nat (chunk_size sp - chunk_overlap sp) in
  let width := Z.to_nat (chunk_size sp) in
  exists windows,
    split sp text = Ok windows
    /\ Z.of_nat (length windows)
       = (Z.of_nat len + Z.of_nat stride - 1) / Z.of_nat stride
    /\ forall (j : nat) window, windows !! j = Some window ->
         window = String.substring (j * stride) width text
         /\ String.length window = window_length len (j * stride) width
         /\ (1 <= String.length window)%nat.
Proof.
  intros Hvalid Hsize len stride width.
  assert (Hstride : Z.of_nat stride = chunk_size sp - chunk_overlap sp)
    by (subst stride; lia).
  unfold split. rewrite range0_pos by lia. eexists. split; [reflexivity|].
  rewrite !length_map, length_seq. rewrite Hstride.
  assert (Hcount : 0 <= (Z.of_nat len + (chunk_size sp - chunk_overlap sp) - 1)
                        / (chunk_size sp - chunk_overlap sp))
    by (apply Z.div_pos; lia).
  split; [fold len; lia|].
  intros j window Hj. rewrite map_map in Hj.
  apply list_lookup_fmap_Some in Hj as (i & -> & Hi).
  apply lookup_seq in Hi as [-> Hlt]. cbn [Nat.add] in *.
  assert (Hwin : str_slice text (Z.of_nat j * (chunk_size sp - chunk_overlap sp))
                   (Z.of_nat j * (chunk_size sp - chunk_overlap sp) + chunk_size sp)
                 = String.substring (j * stride) width text).
  { rewrite str_slice_substring by nia. f_equal; subst stride width; nia. }
  rewrite <- Hwin. split; [done|]. rewrite Hwin, substring_length.
  split; [done|]. unfold window_length.
  assert (Hjlt : Z.of_nat j * (chunk_size sp - chunk_overlap sp) < Z.of_nat len).
  { fold len in Hlt.
    assert (Z.of_nat j < (Z.of_nat len + (chunk_size sp - chunk_overlap sp) - 1)
                         / (chunk_size sp - chunk_overlap sp)) by lia.
    pose proof (Z.mul_div_le (Z.of_nat len + (chunk_size sp - chunk_overlap sp) - 1)
                  (chunk_size sp - chunk_overlap sp) ltac:(lia)).
    nia. }
  subst stride width. nia.
Qed.

(** With an overlap that is not negative no character is lost: joining the
    first stride characters of each window gives the text back. *)
Theorem split_reconstructs_text (sp : CharacterTextSplitter) (text : string) :
  0 <= chunk_overlap sp < chunk_size sp ->
  let stride := Z.to_nat (chunk_size sp - chunk_overlap sp) in
  exists windows,
    split sp text = Ok windows
    /\ String.concat "" (map (String.substring 0 stride) windows) = text.
Proof.
  intros [Hoverlap Hvalid] stride.
  assert (Hstride : Z.of_nat stride = chunk_size sp - chunk_overlap sp)
    by (subst stride; lia).
  unfold split. rewrite range0_pos by lia. eexists. split; [reflexivity|].
  rewrite !map_map.
  rewrite (map_ext _ (fun j : nat => String.substring (j * stride) stride text)).
  - apply concat_strides; [lia|].
    set (len := Z.of_nat (String.length text)).
    set (st := chunk_size sp - chunk_overlap sp) in *.
    assert (0 <= (len + st - 1) / st) by (apply Z.div_pos; subst len; lia).
    pose proof (Z.mod_pos_bound (len + st - 1) st ltac:(lia)).
    pose proof (Z.div_mod (len + st - 1) st ltac:(lia)).
    assert (len <= (len + st - 1) / st * st) by lia.
    subst len. nia.
  - intros j. rewrite str_slice_substring by nia.
    replace (Z.to_nat (Z.of_nat j * (chunk_size sp - chunk_overlap sp)))
      with (j * stride)%nat by nia.
    apply substring_of_substring. lia.
Qed.

(** [split_texts] is [split] text by text with the windows in order: it
    agrees with [split] on one text, and on a list put together from two
    lists it returns the windows of the first followed by those of the
    second; for a splitter that passed the constructor's check it never
    raises. *)
Theorem split_texts_flat (sp : CharacterTextSplitter) :
  chunk_overlap sp < chunk_size sp ->
  (forall text, split_texts sp [text] = split sp text)
  /\ forall texts1 texts2,
       exists chunks1 chunks2,
         split_texts sp texts1 = Ok chunks1
         /\ split_texts sp texts2 = Ok chunks2
         /\ split_texts sp (texts1 ++ texts2) = Ok (chunks1 ++ chunks2).
Proof.
  intros Hvalid.
  assert (Hsplit : forall text, exists windows, split sp text = Ok windows).
  { intros text. unfold split. rewrite range0_pos by lia. by eexists. }
  assert (Htotal : forall texts, exists chunks, split_texts sp texts = Ok chunks).
  { induction texts as [|text texts [chunks IH]]; simpl; [by eexists|].
    destruct (Hsplit text) as [windows ->]. rewrite IH. by eexists. }
  split.
  - intros text. simpl. destruct (split sp text); [|done]. by rewrite app_nil_r.
  - intros texts1 texts2. destruct (Htotal texts2) as [chunks2 H2].
    induction texts1 as [|text texts1 (c1 & c2 & IH1 & IH2 & IH)].
    + exists [], chunks2. done.
    + simpl. destruct (Hsplit text) as [windows ->]. rewrite IH1, IH.
      exists (windows ++ c1), c2. rewrite <- app_assoc. done.
Qed.

Lemma split_windows_witness :
  exists windows,
    split {| chunk_size := 4; chunk_overlap := 2 |} "ABCDEFGHIJ" = Ok windows
    /\ Z.of_nat (length windows) = 5.
Proof.
  destruct (split_windows {| chunk_size := 4; chunk_overlap := 2 |} "ABCDEFGHIJ")
    as (windows & Hrun & Hcount & _); [simpl; lia|simpl; lia|].
  exists windows. split; [exact Hrun|]. rewrite Hcount. reflexivity.
Defined.

Lemma split_reconstructs_text_witness :
  exists windows,
    split {| chunk_size := 4; chunk_overlap := 2 |} "ABCDEFGHIJ" = Ok windows
    /\ String.concat "" (map (String.substring 0 2) windows) = "ABCDEFGHIJ".
Proof.
  apply (split_reconstructs_text {| chunk_size := 4; chunk_overlap := 2 |}).
  simpl. lia.
Defined.

Lemma split_texts_flat_witness :
  split_texts {| chunk_size := 4; chunk_overlap := 2 |} ["ABCDEF"]
  = split {| chunk_size := 4; chunk_overlap := 2 |} "ABCDEF".
Proof.
  apply (split_texts_flat {| chunk_size := 4; chunk_overlap := 2 |}).
  simpl. lia.
Defined.

(** ** The pipeline: ingestion, comparison, the shape of an answer *)

Section PipelineFacts.
Context `{NP : Numpy} `{EM : !EmbeddingModel}.

(** [abuild_from_list] raises only if the embedding call does, and then
    before it has written anything. *)
Lemma abuild_from_list_cases (w : world) (texts : list string)
    (metadata_list : option (list md_entry)) :
  match async_get_embeddings texts with
  | Raise e => abuild_from_list texts metadata_list w = (w, Raise e)
  | Ok _ => exists w', abuild_from_list texts metadata_list w = (w', Ok tt)
  end.
Proof.
  destruct (async_get_embeddings texts) as [embs|e] eqn:Hemb.
  - rewrite (abuild_from_list_unfold _ _ _ _ Hemb).
    generalize 0%nat. revert w.
    induction (py_zip texts embs) as [|[text emb] tes IH]; intros w i0.
    + by exists w.
    + destruct (abuild_step_db metadata_list i0 text emb w) as (w1 & l & Hstep & _).
      destruct (IH w1 (S i0)) as [w' Hloop]. exists w'.
      cbn [for_each enumerate_from]. unfold bind at 1. by rewrite Hstep.
  - unfold abuild_from_list, mbind, M_bind, bind, call. by rewrite Hemb.
Qed.

End PipelineFacts.

Section PipelineTheorems.
Context `{NP : Numpy} `{EM : !EmbeddingModel} `{CM : ChatOpenAI}.
Context `{TL : TextFileLoader} `{RE : Re} `{HL : Hashlib}.

(** The chunks and the metadata that go to the store are aligned: one
    metadata entry per chunk, and the entry at the position of a chunk is
    the metadata of the document the chunk was cut from. *)
Theorem chunk_documents_aligned (sp : CharacterTextSplitter)
    (pairs : list (string * DocumentMetadata))
    (chunks : list string) (chunk_metadata_list : list DocumentMetadata) :
  chunk_documents sp pairs = Ok (chunks, chunk_metadata_list) ->
  length chunk_metadata_list = length chunks
  /\ forall (j : nat) chunk, chunks !! j = Some chunk ->
       exists doc md windows,
         (doc, md) ∈ pairs
         /\ chunk_metadata_list !! j = Some md
         /\ split sp doc = Ok windows
         /\ chunk ∈ windows.
Proof.
  revert chunks chunk_metadata_list.
  induction pairs as [|[doc md] pairs IH]; intros chunks mds Hrun; simpl in Hrun.
  - injection Hrun as <- <-. split; [done|]. intros j chunk Hj. done.
  - destruct (split sp doc) as [windows|e] eqn:Hsplit; [|done].
    rewrite app_nil_r in Hrun.
    destruct (chunk_documents sp pairs) as [[chunks' mds']|e]; [|done].
    injection Hrun as <- <-. destruct (IH chunks' mds' eq_refl) as [Hlen Hall].
    split; [rewrite !length_app, length_replicate; lia|].
    intros j chunk Hj.
    destruct (decide (j < length windows)%nat) as [Hlt|Hge].
    + rewrite lookup_app_l in Hj by done.
      exists doc, md, windows. split; [by left|]. split; [|split; [done|]].
      * rewrite lookup_app_l by (by rewrite length_replicate).
        by apply lookup_replicate_2.
      * by eapply list_elem_of_lookup_2.
    + rewrite lookup_app_r in Hj by lia.
      destruct (Hall _ _ Hj) as (doc' & md' & windows' & Hin & Hmd & Hsp & Hch).
      exists doc', md', windows'. split; [by right|]. split; [|done].
      rewrite lookup_app_r by (rewrite length_replicate; lia).
      by rewrite length_replicate.
Qed.

(** [add_documents_from_file] never raises, and it is all or nothing: when
    it reports a failure (from the loader, the splitter or the embedding
    call) the store and the counters are exactly as before. *)
Theorem add_documents_from_file_all_or_nothing (p : EnhancedRAGPipeline)
    (file_path : string) :
  exists p' r,
    add_documents_from_file file_path p = (p', Ok r)
    /\ (forall error, r = IngestFailure error -> p' = p)
    /\ (forall e, load_file_documents file_path = Raise e ->
          r = IngestFailure (str_exn e)).
Proof.
  unfold add_documents_from_file. run_M.
  destruct (load_file_documents file_path) as [[docs mds]|e]; simpl.
  - destruct (chunk_documents (text_splitter p) (py_zip docs mds))
      as [[chunks cmds]|e]; simpl.
    + pose proof (abuild_from_list_cases (vector_db p) chunks
                    (Some (map MdObject cmds))) as Hcases.
      destruct (async_get_embeddings chunks) as [embs|e].
      * destruct Hcases as [w' ->]. simpl. eexists _, _.
        split; [reflexivity|]. split; [done|done].
      * rewrite Hcases. simpl. rewrite set_vector_db_same. eexists _, _.
        split; [reflexivity|]. split; [done|done].
    + eexists _, _. split; [reflexivity|]. split; [done|done].
  - eexists _, _. split; [reflexivity|]. split; [done|].
    by intros e' [= ->].
Qed.

(** A successful [add_documents_from_file] accounts for what it ingested:
    it reports the numbers of documents and chunks, adds them to the
    counters, adds one record per chunk to the store and moves the key
    counter by as much; the query counter is not touched. *)
Theorem add_documents_from_file_accounting (p : EnhancedRAGPipeline)
    (file_path : string) (docs : list string) (mds : list DocumentMetadata)
    (chunks : list string) (cmds : list DocumentMetadata) (embs : list vec) :
  load_file_documents file_path = Ok (docs, mds) ->
  chunk_documents (text_splitter p) (py_zip docs mds) = Ok (chunks, cmds) ->
  async_get_embeddings chunks = Ok embs ->
  length embs = length chunks ->
  counter_fresh (db (vector_db p)) ->
  exists p',
    add_documents_from_file file_path p
    = (p', Ok (FileSuccess (Z.of_nat (length docs)) (Z.of_nat (length chunks))
                 (0 <? Z.of_nat (length mds))))
    /\ documents_processed (stats p')
       = documents_processed (stats p) + Z.of_nat (length docs)
    /\ chunks_created (stats p')
       = chunks_created (stats p) + Z.of_nat (length chunks)
    /\ queries_processed (stats p') = queries_processed (stats p)
    /\ youtube_videos_processed (stats p') = youtube_videos_processed (stats p)
    /\ length (vectors (db (vector_db p')))
       = (length (vectors (db (vector_db p))) + length chunks)%nat
    /\ chunk_counter (db (vector_db p'))
       = chunk_counter (db (vector_db p)) + Z.of_nat (length chunks)
    /\ counter_fresh (db (vector_db p')).
Proof.
  intros Hload Hchunk Hemb Hlen Hfresh.
  destruct (abuild_loop_db (Some (map MdObject cmds)) (py_zip chunks embs)
              0%nat (vector_db p) Hfresh)
    as (w' & Hloop & Hc & Hn & Hfresh' & _).
  rewrite py_zip_length in Hc, Hn by done.
  unfold add_documents_from_file. run_M. rewrite Hload. simpl.
  rewrite Hchunk. simpl.
  rewrite (abuild_from_list_unfold _ _ _ _ Hemb), Hloop. simpl.
  eexists. split; [reflexivity|]. simpl. done.
Qed.

(** One URL that cannot be transcribed fails the whole of
    [add_documents_from_youtube]: the result is the failure record with the
    transcriber's message, and the store and the counters are as before. *)
Theorem add_documents_from_youtube_invalid_url (p : EnhancedRAGPipeline)
    (urls : list string) (url : string) :
  url ∈ urls ->
  url_is_valid url = false ->
  add_documents_from_youtube urls p = (p, Ok (IngestFailure "Invalid YouTube URL")).
Proof.
  intros Hin Hbad.
  assert (Hvideo : forall u, transcribe_video u = Ok transcript
                             \/ transcribe_video u
                                = Raise (ValueError "Invalid YouTube URL")).
  { intros u. unfold transcribe_video, get_video_info.
    destruct (extract_video_id u) as [id|]; [|by right].
    destruct (bool_decide (id = "")); [by right|by left]. }
  assert (Hall : transcribe_all urls = Raise (ValueError "Invalid YouTube URL")).
  { induction urls as [|u urls IH]; [by apply elem_of_nil in Hin|].
    simpl. destruct (Hvideo u) as [Hok|Hfail]; [|by rewrite Hfail].
    rewrite Hok. apply elem_of_cons in Hin as [->|Hin].
    - exfalso. unfold url_is_valid in Hbad. unfold transcribe_video in Hok.
      destruct (get_video_info u); done.
    - by rewrite IH. }
  unfold add_documents_from_youtube. run_M. by rewrite Hall.
Qed.

End PipelineTheorems.

Lemma chunk_documents_aligned_witness :
  exists chunks mds,
    chunk_documents Sample.splitter [("hello world", Sample.notes)] = Ok (chunks, mds)
    /\ length mds = length chunks.
Proof.
  exists ["hello wo"; "world"], [Sample.notes; Sample.notes].
  split; [reflexivity|].
  apply (chunk_documents_aligned Sample.splitter [("hello world", Sample.notes)]).
  reflexivity.
Defined.

Lemma add_documents_from_file_accounting_witness :
  exists p',
    @add_documents_from_file Example.Z_numpy Example.embedding_ok Sample.files
      "notes.txt" Sample.pipeline = (p', Ok (FileSuccess 1 2 true))
    /\ chunks_created (stats p') = 2.
Proof.
  destruct (@add_documents_from_file_accounting Example.Z_numpy Example.embedding_ok
              Sample.files Sample.pipeline "notes.txt" ["hello world"] [Sample.notes]
              ["hello wo"; "world"] [Sample.notes; Sample.notes] [[0; 1]; [0; 1]])
    as (p' & Hrun & _ & Hchunks & _).
  - reflexivity.
  - reflexivity.
  - reflexivity.
  - reflexivity.
  - intros j Hj. reflexivity.
  - exists p'. split; [exact Hrun|exact Hchunks].
Defined.

Lemma add_documents_from_youtube_invalid_url_witness :
  @add_documents_from_youtube Example.Z_numpy Example.embedding_ok Sample.re
    Sample.hashlib ["https://youtu.be/dQw4w9WgXcQ"; "not a link"] Sample.pipeline
  = (Sample.pipeline, Ok (IngestFailure "Invalid YouTube URL")).
Proof.
  apply (@add_documents_from_youtube_invalid_url Example.Z_numpy Example.embedding_ok
           Sample.re Sample.hashlib Sample.pipeline _ "not a link").
  - apply elem_of_cons. right. apply elem_of_cons. left. reflexivity.
  - reflexivity.
Defined.

Section PipelineReadTheorems.
Context `{NP : Numpy} `{EM : !EmbeddingModel} `{CM : ChatOpenAI}.

Lemma compare_step_run (p : EnhancedRAGPipeline) (user_query : string) (k : Z)
    (metric : string) (results : list (string * metric_report)) :
  exists report,
    compare_step user_query k metric results p
    = (p, Ok (assoc_set metric report results))
    /\ (forall e, get_embedding user_query = Raise e ->
          report = MetricError (str_exn e))
    /\ (forall v, get_embedding user_query = Ok v ->
          exists top_results scores,
            report = MetricResults top_results scores
            /\ length top_results = length scores
            /\ (0 <= k -> Z.of_nat (length top_results) <= k)).
Proof.
  unfold compare_step. run_M.
  pose proof (search_by_text_run (vector_db p) user_query k (DStr metric)
                false false None) as Hrun.
  unfold search_by_text in *. revert Hrun. run_M.
  destruct (get_embedding user_query) as [v|e].
  - rewrite search_run. simpl. intros _. rewrite set_vector_db_same.
    eexists. split; [reflexivity|]. split; [done|].
    intros v' _. eexists _, _. split; [reflexivity|].
    rewrite !length_map. split; [done|].
    intros Hk. rewrite slice_to_nonneg by done. rewrite length_take. lia.
  - intros _. rewrite set_vector_db_same. eexists. split; [reflexivity|].
    split; [by intros e' [= ->]|done].
Qed.

(** [compare_distance_metrics] never raises and leaves the pipeline as it
    is; it reports on "cosine", "euclidean" and "manhattan", in this order.
    If the embedding call raises, every entry is that error; otherwise
    every entry has as many scores as texts, at most k of them for a k
    that is not negative. *)
Theorem compare_distance_metrics_report (p : EnhancedRAGPipeline)
    (user_query : string) (k : Z) :
  exists report,
    compare_distance_metrics user_query k p = (p, Ok report)
    /\ report.*1 = ["cosine"; "euclidean"; "manhattan"]
    /\ (forall e, get_embedding user_query = Raise e ->
          Forall (fun entry => snd entry = MetricError (str_exn e)) report)
    /\ (forall v, get_embedding user_query = Ok v ->
          Forall (fun entry =>
                    exists top_results scores,
                      snd entry = MetricResults top_results scores
                      /\ length top_results = length scores
                      /\ (0 <= k -> Z.of_nat (length top_results) <= k))
                 report).
Proof.
  unfold compare_distance_metrics, distance_functions_keys. cbn [for_each].
  destruct (compare_step_run p user_query k "cosine" []) as (r1 & H1 & He1 & Hv1).
  unfold bind at 1. rewrite H1.
  destruct (compare_step_run p user_query k "euclidean" (assoc_set "cosine" r1 []))
    as (r2 & H2 & He2 & Hv2).
  unfold bind at 1. rewrite H2.
  destruct (compare_step_run p user_query k "manhattan"
              (assoc_set "euclidean" r2 (assoc_set "cosine" r1 [])))
    as (r3 & H3 & He3 & Hv3).
  unfold bind at 1. rewrite H3. eexists. split; [reflexivity|].
  split; [reflexivity|]. split.
  - intros e He. repeat constructor; simpl; eauto.
  - intros v Hv. repeat constructor; simpl; eauto.
Qed.

(** When both collaborators answer, [query] returns a success record
    built from the hits of [search] for the embedding of the query, under
    the metric passed or, if none or the empty name is passed, the
    pipeline's own: the context holds, hit by hit and in their order, the
    first text mapped to the hit's key (the key itself if there is none),
    the relevance scores the hit's score in [.3f] format, the sources the
    label of the hit's metadata, and the full results, attached exactly
    when [include_metadata] is set, the (text, score, metadata) rows. The
    response is the chat model's answer at temperature 0 to exactly two
    messages, the system message for the response style and the user
    message with the context joined by blank lines and the question. So
    the three lists have one entry per hit, at most k for a k that is not
    negative and none for an empty store. *)
Theorem query_success_shape (p : EnhancedRAGPipeline) (user_query : string)
    (k : Z) (metric : option string) (response_style : string)
    (include_metadata : bool) (filt : option string) (v : vec) :
  get_embedding user_query = Ok v ->
  (forall messages, exists answer, chat_run messages 0 = Ok answer) ->
  exists response context relevance_scores sources full_results,
    query user_query k metric response_style include_metadata filt p
    = (count_query p,
       Ok (QuerySuccess response context relevance_scores sources full_results))
    /\ length relevance_scores = length context
    /\ length sources = length context
    /\ (0 <= k -> Z.of_nat (length context) <= k)
    /\ (vectors (db (vector_db p)) = [] -> context = [])
    /\ (exists system user,
          role system = "system" /\ role user = "user"
          /\ chat_run [system; user] 0 = Ok response)
    /\ (include_metadata = true <-> exists rows, full_results = Some rows)
    /\ (exists hits,
          search v k
            (DStr match metric with
                  | Some name => if decide (name = "") then distance_metric p else name
                  | None => distance_metric p
                  end)
            filt (vector_db p)
          = (vector_db p, Ok hits)
          /\ context
             = map (fun hit : result =>
                      default (fst (fst hit))
                        (text_of_key (fst (fst hit))
                           (text_to_key (db (vector_db p)))))
                   hits
          /\ relevance_scores
             = map (fun hit : result => format_3f (result_score hit)) hits
          /\ sources
             = map (fun hit : result =>
                      source_label (deref (objects (vector_db p)) (snd hit)))
                   hits
          /\ full_results
             = (if include_metadata
                then Some (map (fun hit : result =>
                                  (default (fst (fst hit))
                                     (text_of_key (fst (fst hit))
                                        (text_to_key (db (vector_db p)))),
                                   result_score hit, snd hit))
                               hits)
                else None)
          /\ chat_run [system_message response_style;
                       user_message (String.concat (newline +:+ newline) context)
                                    user_query] 0
             = Ok response).
Proof.
  intros Hemb Hchat. unfold query, query_body. run_M.
  set (m := DStr _).
  pose proof (search_by_text_run (vector_db p) user_query k m false true filt) as Hrun.
  unfold search_by_text in *. revert Hrun. run_M. rewrite Hemb, search_run. simpl.
  intros _.
  replace (set_vector_db (vector_db p) (count_query p)) with (count_query p)
    by (by destruct p).
  match goal with
  | |- context [chat_run ?messages 0] =>
      destruct (Hchat messages) as [answer Hanswer]; rewrite Hanswer
  end.
  simpl. eexists _, _, _, _, _. split; [reflexivity|].
  rewrite !length_map. split; [done|]. split; [done|].
  split; [|split; [|split; [|split]]].
  - intros Hk. rewrite slice_to_nonneg by done. rewrite length_take. lia.
  - intros Hempty. rewrite Hempty. unfold candidates. simpl.
    assert (Hnil : forall b, slice_to (sorted [] b) k = []).
    { intros b. assert (sorted [] b = []) as -> by (by destruct b).
      unfold slice_to, slice. by rewrite drop_nil, take_nil. }
    by rewrite Hnil.
  - eexists _, _. split; [|split; [|exact Hanswer]]; reflexivity.
  - destruct include_metadata; split; try done; eauto.
    intros [rows' Hrows]. done.
  - eexists. split; [reflexivity|].
    assert (Hrows : forall l : list result,
              map (fun '(key, score, metadata) =>
                     (default key (text_of_key key (text_to_key (db (vector_db p)))),
                      score, metadata)) l
              = map (fun hit : result =>
                       (default (fst (fst hit))
                          (text_of_key (fst (fst hit))
                             (text_to_key (db (vector_db p)))),
                        result_score hit, snd hit)) l).
    { intros l. apply map_ext. by intros [[key score] md]. }
    rewrite !Hrows, !map_map in *. unfold result_score in *. cbn [fst snd] in *.
    split; [done|]. split; [done|]. split; [done|]. split; [done|]. exact Hanswer.
Qed.

End PipelineReadTheorems.

Lemma query_success_shape_witness :
  exists response context relevance_scores sources full_results,
    @query Example.Z_numpy Example.embedding_ok Example.chat_ok
      "cat" 1 None "concise" true (Some "txt") Example.pipeline
    = (count_query Example.pipeline,
       Ok (QuerySuccess response context relevance_scores sources full_results))
    /\ length relevance_scores = length context.
Proof.
  destruct (@query_success_shape Example.Z_numpy Example.embedding_ok Example.chat_ok
              Example.pipeline "cat" 1 None "concise" true (Some "txt") [1; 0])
    as (response & context & scores & sources & full & Hrun & Hlen & _).
  - reflexivity.
  - intros messages. eexists. reflexivity.
  - exists response, context, scores, sources, full. split; [exact Hrun|exact Hlen].
Defined.

(** ** youtube_utils.py *)

Section YouTubeTheorems.
Context `{RE : Re} `{HL : Hashlib}.

(** [transcribe_video] either raises the ValueError "Invalid YouTube URL"
    or returns the one transcript, whatever the URL: it raises exactly when
    the first pattern that matches the URL (the first of the two, if both
    do) captures nothing, or when neither pattern matches. *)
Theorem transcribe_video_cases (url : string) :
  transcribe_video url
  = (if url_is_valid url then Ok transcript
     else Raise (ValueError "Invalid YouTube URL"))
  /\ (url_is_valid url = true <->
      exists id, id <> ""
        /\ (re_search_group1 (default "" (patterns !! 0%nat)) url = Some id
            \/ (re_search_group1 (default "" (patterns !! 0%nat)) url = None
                /\ re_search_group1 (default "" (patterns !! 1%nat)) url = Some id))).
Proof.
  unfold transcribe_video, url_is_valid, get_video_info, extract_video_id, patterns.
  simpl.
  destruct (re_search_group1 _ url) as [id1|] eqn:H1.
  - destruct (decide (id1 = "")) as [Hid|Hid].
    + rewrite bool_decide_eq_true_2 by done. split; [done|].
      split; [done|]. intros (id & Hne & [Hm|[Hm _]]); congruence.
    + rewrite bool_decide_eq_false_2 by done. split; [done|].
      split; [|done]. intros _. exists id1. split; [done|by left].
  - match goal with
    | |- context [re_search_group1 ?pattern url] =>
        destruct (re_search_group1 pattern url) as [id2|] eqn:H2
    end; simpl.
    + destruct (decide (id2 = "")) as [Hid|Hid].
      * rewrite bool_decide_eq_true_2 by done. split; [done|].
        split; [done|]. intros (id & Hne & [Hm|[_ Hm]]); congruence.
      * rewrite bool_decide_eq_false_2 by done. split; [done|].
        split; [|done]. intros _. exists id2. split; [done|by right].
    + split; [done|]. split; [done|]. intros (id & Hne & [Hm|[_ Hm]]); done.
Qed.

Lemma M_bind_run {S A B : Type} (m : M S A) (k : A -> M S B) (s s' : S) (a : A) :
  m s = (s', Ok a) -> (m ≫= k) s = k a s'.
Proof. intros Hm. unfold mbind, M_bind, bind. by rewrite Hm. Qed.

Lemma load_one_run (url : string) (loader : YouTubeDocumentLoader) :
  exists metadata,
    try_except (load_one url) (fun _ => mret tt) loader
    = ((if url_is_valid url
        then {| urls := urls loader;
                documents := documents loader ++ [transcript];
                metadata_of_documents := metadata_of_documents loader ++ [metadata] |}
        else loader),
       Ok tt)
    /\ file_type metadata = "youtube"
    /\ size metadata = utf8_len transcript
    /\ content_hash metadata = VStr (md5_hexdigest transcript)
    /\ chunk_index metadata = VNone.
Proof.
  unfold load_one, url_is_valid, transcribe_video.
  destruct (get_video_info url) as [error|id title u d a ds t]; run_M.
  - exists (set_content_hash
              (DocumentMetadata_init "" "youtube" (utf8_len transcript)
                 VNone VNone VNone)
              transcript).
    done.
  - eexists. split; [reflexivity|]. done.
Qed.

(** [YouTubeDocumentLoader.load_documents] never raises and keeps documents
    and metadata in step: it appends one transcript and one metadata entry
    for every URL with a video id, in order, and skips the others. The new
    entries are YouTube entries sized and hashed from the transcript. What
    was loaded before stays, so a second call loads everything again. *)
Theorem load_documents_aligned (loader : YouTubeDocumentLoader) :
  let n := length (List.filter url_is_valid (urls loader)) in
  exists loader' new_metadata,
    load_documents loader = (loader', Ok (documents loader'))
    /\ urls loader' = urls loader
    /\ documents loader' = documents loader ++ replicate n transcript
    /\ metadata_of_documents loader' = metadata_of_documents loader ++ new_metadata
    /\ length new_metadata = n
    /\ Forall (fun md => file_type md = "youtube"
                         /\ size md = utf8_len transcript
                         /\ content_hash md = VStr (md5_hexdigest transcript)
                         /\ chunk_index md = VNone)
              new_metadata.
Proof.
  intros n.
  assert (Hloop : forall us l,
    exists l' mds,
      for_each us (fun url _ => try_except (load_one url) (fun _ => mret tt)) tt l
      = (l', Ok tt)
      /\ urls l' = urls l
      /\ documents l'
         = documents l ++ replicate (length (List.filter url_is_valid us)) transcript
      /\ metadata_of_documents l' = metadata_of_documents l ++ mds
      /\ length mds = length (List.filter url_is_valid us)
      /\ Forall (fun md => file_type md = "youtube"
                           /\ size md = utf8_len transcript
                           /\ content_hash md = VStr (md5_hexdigest transcript)
                           /\ chunk_index md = VNone) mds).
  { induction us as [|url us IH]; intros l.
    - exists l, []. simpl. rewrite !app_nil_r. done.
    - destruct (load_one_run url l) as (md & Hone & Hmd).
      cbn [for_each List.filter]. unfold bind at 1. rewrite Hone.
      destruct (url_is_valid url).
      + destruct (IH {| urls := urls l;
                        documents := documents l ++ [transcript];
                        metadata_of_documents := metadata_of_documents l ++ [md] |})
          as (l' & mds & Hrun & Hu & Hd & Hm & Hlen & Hall).
        exists l', (md :: mds). split; [done|]. simpl in *.
        split; [done|]. split; [by rewrite Hd, <- app_assoc|].
        split; [by rewrite Hm, <- app_assoc|]. split; [by rewrite Hlen|].
        by constructor.
      + destruct (IH l) as (l' & mds & Hrun & Hu & Hd & Hm & Hlen & Hall).
        exists l', mds. done. }
  destruct (Hloop (urls loader) loader) as (l' & mds & Hrun & Hu & Hd & Hm & Hlen & Hall).
  exists l', mds. split; [|done].
  unfold load_documents.
  rewrite (M_bind_run get _ loader loader loader eq_refl).
  rewrite (M_bind_run _ _ loader l' tt Hrun).
  by rewrite (M_bind_run get _ l' l' l' eq_refl).
Qed.

End YouTubeTheorems.
